(** * express-backend: documents, cascades and request handlers

    A shallow embedding of [src/router/articles.ts] and of the users router
    and the [sessions] model of [src/models/UserSession.ts].

    The document store (MongoDB behind Mongoose 5) is an external
    collaborator.  A collection is the list of its documents in natural
    order; every Mongoose call the handlers make is a function on such a
    list, with the defaults Mongoose documents for it ([findOne] and the
    [findOneAnd...] family act on the first match, [Model.update] has
    [multi: false], [Model.remove] and [deleteMany] act on every match; a
    string given where the schema has an [_id] is cast to an ObjectId, and
    the call fails with a CastError when the string is none). *)

From Stdlib Require Import ZArith Ascii String List Bool Permutation Sorted Lia.
From stdpp Require Import base tactics option list sorting.
Import ListNotations.
Local Open Scope string_scope.
Local Open Scope list_scope.
Local Open Scope Z_scope.

(** ** Documents *)

(** An [_id] is an ObjectId: twelve bytes.  Request parameters and the
    [articleId] of a comment body are strings; Mongoose casts a string to an
    ObjectId where the schema path is [_id], and [String(doc._id)] renders
    an ObjectId as 24 lowercase hexadecimal digits. *)
Module ObjectId.
Definition t : Type := dsig (fun bytes : string => String.length bytes = 12%nat).

Definition bytes (o : t) : string := proj1_sig o.

Definition eqb (a b : t) : bool := String.eqb (bytes a) (bytes b).

Definition hex_digit (n : N) : ascii :=
  if (n <? 10)%N then ascii_of_N (48 + n) else ascii_of_N (87 + n).

Fixpoint hex_of (s : string) : string :=
  match s with
  | EmptyString => EmptyString
  | String c r =>
      String (hex_digit (N_of_ascii c / 16))
        (String (hex_digit (N_of_ascii c mod 16)) (hex_of r))
  end.

(** [String(o)], [o.toHexString()] *)
Definition toString (o : t) : string := hex_of (bytes o).

(** A hexadecimal digit of either case. *)
Definition digit_value (c : ascii) : option N :=
  let n := N_of_ascii c in
  if ((48 <=? n) && (n <=? 57))%N then Some (n - 48)%N
  else if ((97 <=? n) && (n <=? 102))%N then Some (n - 87)%N
  else if ((65 <=? n) && (n <=? 70))%N then Some (n - 55)%N
  else None.

Fixpoint unhex (s : string) : option string :=
  match s with
  | EmptyString => Some EmptyString
  | String _ EmptyString => None
  | String h (String l r) =>
      match digit_value h, digit_value l, unhex r with
      | Some a, Some b, Some r' => Some (String (ascii_of_N (16 * a + b)) r')
      | _, _, _ => None
      end
  end.

Definition of_bytes (s : string) : option t :=
  match decide (String.length s = 12%nat) with
  | left H => Some (dexist s H)
  | right _ => None
  end.

(** The cast of a string to an ObjectId: 24 hexadecimal digits of either
    case, or a string of 12 characters taken as the bytes themselves;
    anything else is not an ObjectId ([None], a CastError at the call). *)
Definition cast (value : string) : option t :=
  if Nat.eqb (String.length value) 24 then
    match unhex value with
    | Some b => of_bytes b
    | None => None
    end
  else of_bytes value.
End ObjectId.

Definition Id : Type := ObjectId.t.
(** [Date] values, as milliseconds since the epoch. *)
Definition Date : Type := Z.

(** Modelled from the spec: the User model ([models/User.ts]) is not among
    the sources; its fields are [id], profile fields (here the user name),
    the [isRemoved] soft-delete marker and the creation timestamp. *)
Module User.
Record t : Type := mk {
  _id : Id;
  username : string;
  isRemoved : bool;
  created : Date
}.
Definition set_isRemoved (b : bool) (u : t) : t :=
  mk (_id u) (username u) b (created u).
Definition set_username (n : string) (u : t) : t :=
  mk (_id u) n (isRemoved u) (created u).
End User.

(** [UserSessionSchema]: [userId] is a String, [isRemoved] a Boolean
    (default false), [created] a Date. *)
Module UserSession.
Record t : Type := mk {
  _id : Id;
  userId : string;
  isRemoved : bool;
  created : Date
}.
Definition set_isRemoved (b : bool) (x : t) : t :=
  mk (_id x) (userId x) b (created x).
End UserSession.

(** Modelled from the spec: the Article model ([models/Article.ts]) is not
    among the sources; its fields are [id], [title], [slug], the view
    counter, the owning user reference, the ordered sequence of comment
    references and the creation timestamp.  Content fields that no handler
    inspects are left out.  The view counter is an integer in the range
    where the store's arithmetic is exact. *)
Module Article.
Record t : Type := mk {
  _id : Id;
  title : string;
  slug : string;
  views : Z;
  user : option Id;
  comments : list Id;
  created : Date
}.
Definition inc_views (n : Z) (a : t) : t :=
  mk (_id a) (title a) (slug a) (views a + n) (user a) (comments a) (created a).
Definition push_comment (c : Id) (a : t) : t :=
  mk (_id a) (title a) (slug a) (views a) (user a) (comments a ++ [c]) (created a).
End Article.

(** Modelled from the spec: the Comment model ([models/Comment.ts]) is not
    among the sources; its fields are [id], the article reference (the
    handlers name it [articleId]; it is kept as the body supplies it), the
    user reference, the body text and the creation timestamp. *)
Module Comment.
Record t : Type := mk {
  _id : Id;
  articleId : string;
  user : option Id;
  text : string;
  created : Date
}.
End Comment.

(** The four persisted collections. *)
Record Store : Type := mkStore {
  users : list User.t;
  sessions : list UserSession.t;
  articles : list Article.t;
  comments : list Comment.t
}.

(** ** Mongoose calls on one collection *)

Section Collection.
Context {A : Type}.

(** [Model.findOne(filter)]: the first document that matches. *)
Definition findOne (q : A -> bool) (c : list A) : option A := List.find q c.

(** The write of [updateOne], of [findOneAndUpdate] and of
    [Model.update] without [multi: true]: the first match is rewritten,
    every other document is left as it is. *)
Fixpoint updateFirst (q : A -> bool) (f : A -> A) (c : list A) : list A :=
  match c with
  | [] => []
  | d :: c' => if q d then f d :: c' else d :: updateFirst q f c'
  end.

(** [Model.update(filter, doc, options)].  Mongoose: "updates one document
    in the database without returning it", with the option [multi]
    ("whether multiple documents should be updated") false by default.  The
    one call in the sources passes [{new: true}] and no [multi], so one
    document at most is modified. *)
Definition update (q : A -> bool) (f : A -> A) (c : list A) : list A :=
  updateFirst q f c.

Definition updateOne (q : A -> bool) (f : A -> A) (c : list A) : list A :=
  updateFirst q f c.

(** [Model.findOneAndUpdate(filter, doc, {new: true})]: the document
    returned is the one after the update, [None] stands for [null]. *)
Definition findOneAndUpdate (q : A -> bool) (f : A -> A) (c : list A)
  : list A * option A :=
  (updateFirst q f c, option_map f (findOne q c)).

(** [Model.remove(filter)] and [Model.deleteMany(filter)]. *)
Definition remove (q : A -> bool) (c : list A) : list A :=
  List.filter (fun d => negb (q d)) c.

Definition deleteMany (q : A -> bool) (c : list A) : list A := remove q c.

Fixpoint removeFirst (q : A -> bool) (c : list A) : list A :=
  match c with
  | [] => []
  | d :: c' => if q d then c' else d :: removeFirst q c'
  end.

(** [Model.findOneAndRemove(filter)]: the removed document is returned. *)
Definition findOneAndRemove (q : A -> bool) (c : list A) : list A * option A :=
  (removeFirst q c, findOne q c).
End Collection.

(** Filters the handlers build.  A document is found under the string [i]
    when [String(doc._id)] is [i]; the condition [{_id: o}] for an ObjectId
    [o] selects the documents found under [ObjectId.toString o]. *)
Definition by_user_id (i : string) (u : User.t) : bool :=
  String.eqb (ObjectId.toString (User._id u)) i.
Definition by_article_id (i : string) (a : Article.t) : bool :=
  String.eqb (ObjectId.toString (Article._id a)) i.
Definition by_comment_id (i : string) (c : Comment.t) : bool :=
  String.eqb (ObjectId.toString (Comment._id c)) i.
Definition by_title (t : string) (a : Article.t) : bool := String.eqb (Article.title a) t.
Definition by_slug (s : string) (a : Article.t) : bool := String.eqb (Article.slug a) s.

(** [{userId: req.params.userId, isRemoved: false}] *)
Definition active_session_of (uid : string) (x : UserSession.t) : bool :=
  String.eqb (UserSession.userId x) uid && negb (UserSession.isRemoved x).

Definition ref_eqb (r : option Id) (i : Id) : bool :=
  match r with
  | Some j => ObjectId.eqb j i
  | None => false
  end.

(** [{user: user._id}] on articles and on comments, [{articleId: article._id}]. *)
Definition article_of_user (uid : Id) (a : Article.t) : bool := ref_eqb (Article.user a) uid.
Definition comment_of_user (uid : Id) (c : Comment.t) : bool := ref_eqb (Comment.user c) uid.
Definition comment_of_article (aid : Id) (c : Comment.t) : bool :=
  String.eqb (Comment.articleId c) (ObjectId.toString aid).

(** ** Slugs *)

(** [s.split(' ')]: the pieces of [s] between separators; the empty string
    splits into one empty piece. *)
Fixpoint split (sep : ascii) (s : string) : list string :=
  match s with
  | EmptyString => [EmptyString]
  | String c r =>
      if Ascii.eqb c sep then EmptyString :: split sep r
      else match split sep r with
           | h :: t => String c h :: t
           | [] => [String c EmptyString]
           end
  end.

(** [pieces.join('-')] *)
Fixpoint join (sep : string) (pieces : list string) : string :=
  match pieces with
  | [] => EmptyString
  | [p] => p
  | p :: rest => (p ++ sep ++ join sep rest)%string
  end.

(** [toLowerCase] on the characters of the model, which are the code units
    below 256: A to Z and the accented capitals U+00C0 to U+00DE (the
    multiplication sign U+00D7 apart) move up by 32. *)
Definition lower (c : ascii) : ascii :=
  let n := N_of_ascii c in
  if ((65 <=? n) && (n <=? 90) ||
      (192 <=? n) && (n <=? 222) && negb (n =? 215))%N
  then ascii_of_N (n + 32) else c.

(** Titles and slugs are strings of code units below 256; there
    [String.prototype.toLowerCase] acts on each unit by itself.  Strings
    with larger code units, where lowercasing can change the length, are
    outside the model. *)
Fixpoint toLowerCase (s : string) : string :=
  match s with
  | EmptyString => EmptyString
  | String c r => String (lower c) (toLowerCase r)
  end.

(** The slug as [router.put('/:articleId')] computes it (lines 83-86). *)
Definition slug_of_title (title : string) : string :=
  toLowerCase (join "-" (split " "%char title)).

(** The slug in the words of the specification: every space replaced by a
    hyphen, then lowercased. *)
Definition hyphenate (c : ascii) : ascii :=
  if Ascii.eqb c " "%char then "-"%char else c.

Fixpoint replace_spaces (s : string) : string :=
  match s with
  | EmptyString => EmptyString
  | String c r => String (hyphenate c) (replace_spaces r)
  end.

Definition spec_slug (title : string) : string :=
  toLowerCase (replace_spaces title).

(** ** Requests and responses *)

(** An entry of [errors.array()], or the literal [{msg: ...}] the article
    routes answer on a title clash. *)
Record ErrorItem : Type := mkError {
  msg : string;
  param : option string
}.

(** [req.body] of the article routes.  [title] is the string the handlers
    query and split; [user] is present or not. *)
Record ArticleBody : Type := mkArticleBody {
  body_title : string;
  body_user : option Id
}.

(** [req.body] of [POST /articles/comments]. *)
Record CommentBody : Type := mkCommentBody {
  body_articleId : string;
  body_comment_user : option Id;
  body_text : string
}.

(** [req.body] of [PUT /users/:userId]: partial user fields. *)
Record UserBody : Type := mkUserBody {
  body_username : option string;
  body_isRemoved : option bool
}.

(** The validator chains of [utils/validators], which is not among the
    sources: each maps the body to the errors [validationResult(req)]
    holds once the chain has run. *)
Record Validators : Type := mkValidators {
  articleValidators : ArticleBody -> list ErrorItem;
  commentValidators : CommentBody -> list ErrorItem;
  editUserValidators : UserBody -> list ErrorItem
}.

(** What the driver supplies on a create: the new ObjectId and the clock. *)
Record Env : Type := mkEnv {
  fresh : Id;
  now : Date
}.

(** Populated documents. *)
Record CommentView : Type := mkCommentView {
  c_doc : Comment.t;
  c_user : option User.t
}.

Record ArticleView : Type := mkArticleView {
  a_doc : Article.t;
  a_user : option User.t;
  a_comments : list CommentView
}.

(** The argument of [res.json]. *)
Inductive Response : Type :=
| R_errors (errors : list ErrorItem)
| R_articles (l : list ArticleView)
| R_article (a : option ArticleView)
| R_article_created (a : option (Article.t * option User.t))
| R_article_removed (a : Article.t)
| R_comment_created (c : CommentView)
| R_comment (c : option Comment.t)
| R_user (u : option User.t).

Inductive Error : Type :=
| TypeError (m : string)
| MongoError (m : string)
| CastError (value : string) (path : string).

(** How a request ends: [res.json] was called, the handler returned without
    answering, the error went to [next], or the handler's promise was
    rejected with nobody to catch it. *)
Inductive Outcome : Type :=
| Json (r : Response)
| NoResponse
| Next (e : Error)
| Rejected (e : Error).

(** ** Handlers as store transformers that may throw *)

Definition M (A : Type) : Type := Store -> Store * (Error + A).

Definition ret {A : Type} (x : A) : M A := fun s => (s, inr x).
Definition throw {A : Type} (e : Error) : M A := fun s => (s, inl e).
Definition bind {A B : Type} (m : M A) (k : A -> M B) : M B :=
  fun s =>
    match m s with
    | (s', inr x) => k x s'
    | (s', inl e) => (s', inl e)
    end.

Notation "'await' x <- m ;; k" := (bind m (fun x => k))
  (at level 10, x name, m at level 99, k at level 200).
Notation "'exec' m ;; k" := (bind m (fun _ => k))
  (at level 10, m at level 99, k at level 200).

(** [res.json(r)] and falling off the end of the handler. *)
Definition res_json (r : Response) : M (option Response) := ret (Some r).
Definition no_response : M (option Response) := ret None.

Definition outcome_of (r : Error + option Response) (on_error : Error -> Outcome) : Outcome :=
  match r with
  | inl e => on_error e
  | inr (Some j) => Json j
  | inr None => NoResponse
  end.

(** [try { ... } catch (err) { next(err) }], the shape of every handler of
    the articles router. *)
Definition try_next (h : M (option Response)) (s : Store) : Store * Outcome :=
  let (s', r) := h s in (s', outcome_of r Next).

(** An [async] handler without [try]: the shape of the users router. *)
Definition no_catch (h : M (option Response)) (s : Store) : Store * Outcome :=
  let (s', r) := h s in (s', outcome_of r Rejected).

(** [Model.create(doc)]: the store refuses a second document with the same
    [_id] (duplicate key), otherwise the document goes last. *)
Definition create {A : Type} (id_of : A -> Id) (d : A) (c : list A) : Error + list A :=
  if existsb (fun x => ObjectId.eqb (id_of x) (id_of d)) c
  then inl (MongoError "E11000 duplicate key error")
  else inr (c ++ [d]).

(** Sort orders: [{created: -1}]. *)
Definition newer_article (a b : Article.t) : Prop :=
  Article.created b <= Article.created a.
Definition newer_comment (a b : Comment.t) : Prop :=
  Comment.created b <= Comment.created a.

#[global] Instance newer_article_dec : RelDecision newer_article.
Proof. intros a b. unfold newer_article. apply Z_le_dec. Defined.
#[global] Instance newer_comment_dec : RelDecision newer_comment.
Proof. intros a b. unfold newer_comment. apply Z_le_dec. Defined.

(** ** Population *)

(** [.populate('user')]: the referenced user, or [null]. *)
Definition populate_user (s : Store) (r : option Id) : option User.t :=
  match r with
  | Some i => findOne (by_user_id (ObjectId.toString i)) (users s)
  | None => None
  end.

Definition populate_comment (s : Store) (c : Comment.t) : CommentView :=
  mkCommentView c (populate_user s (Comment.user c)).

(** [.populate('comments', null, null, {sort: {created: -1}, populate:
    {path: 'user'}})]: the comments whose ids the article lists, newest
    first; an id with no comment behind it contributes nothing. *)
Definition populate_comments (s : Store) (ids : list Id) : list CommentView :=
  List.map (populate_comment s)
    (merge_sort newer_comment
       (List.filter (fun c => existsb (ObjectId.eqb (Comment._id c)) ids) (comments s))).

Definition populate_article (s : Store) (a : Article.t) : ArticleView :=
  mkArticleView a (populate_user s (Article.user a))
    (populate_comments s (Article.comments a)).

(** ** Model calls inside a handler *)

Definition set_articles (c : list Article.t) (s : Store) : Store :=
  mkStore (users s) (sessions s) c (comments s).
Definition set_comments (c : list Comment.t) (s : Store) : Store :=
  mkStore (users s) (sessions s) (articles s) c.
Definition set_users (c : list User.t) (s : Store) : Store :=
  mkStore c (sessions s) (articles s) (comments s).
Definition set_sessions (c : list UserSession.t) (s : Store) : Store :=
  mkStore (users s) c (articles s) (comments s).

(** [Article.find().sort({created: -1}).skip(n).limit(k)] *)
Definition Article_find_page (n k : nat) : M (list Article.t) :=
  fun s => (s, inr (take k (drop n (merge_sort newer_article (articles s))))).

(** The cast Mongoose applies to a string given for [_id], in a condition
    [{_id: value}] or as the argument of a [findById...] call: a string that
    is not an ObjectId makes the call fail with a CastError. *)
Definition cast_id (value : string) : M Id :=
  match ObjectId.cast value with
  | Some o => ret o
  | None => throw (CastError value "_id")
  end.

Definition Article_findOne (q : Article.t -> bool) : M (option Article.t) :=
  fun s => (s, inr (findOne q (articles s))).

(** [Article.findById(doc._id)], on an ObjectId. *)
Definition Article_findById (i : Id) : M (option Article.t) :=
  Article_findOne (by_article_id (ObjectId.toString i)).

Definition Article_create (d : Article.t) : M Article.t :=
  fun s =>
    match create Article._id d (articles s) with
    | inl e => (s, inl e)
    | inr c => (set_articles c s, inr d)
    end.

Definition Article_findOneAndUpdate (q : Article.t -> bool) (f : Article.t -> Article.t)
  : M (option Article.t) :=
  fun s => let (c, r) := findOneAndUpdate q f (articles s) in (set_articles c s, inr r).

(** [Article.findByIdAndUpdate(req.params.articleId, ..., {new: true})] *)
Definition Article_findByIdAndUpdate (i : string) (f : Article.t -> Article.t)
  : M (option Article.t) :=
  bind (cast_id i)
    (fun o => Article_findOneAndUpdate (by_article_id (ObjectId.toString o)) f).

(** [Article.findByIdAndRemove(req.params.articleId)] *)
Definition Article_findByIdAndRemove (i : string) : M (option Article.t) :=
  bind (cast_id i)
    (fun o s =>
       let (c, r) :=
         findOneAndRemove (by_article_id (ObjectId.toString o)) (articles s) in
       (set_articles c s, inr r)).

(** [Article.updateOne({_id: i}, ...)] *)
Definition Article_updateOne (i : string) (f : Article.t -> Article.t) : M unit :=
  bind (cast_id i)
    (fun o s =>
       (set_articles
          (updateOne (by_article_id (ObjectId.toString o)) f (articles s)) s,
        inr tt)).

Definition Article_remove (q : Article.t -> bool) : M unit :=
  fun s => (set_articles (remove q (articles s)) s, inr tt).

Definition Comment_create (d : Comment.t) : M Comment.t :=
  fun s =>
    match create Comment._id d (comments s) with
    | inl e => (s, inl e)
    | inr c => (set_comments c s, inr d)
    end.

Definition Comment_deleteMany (q : Comment.t -> bool) : M unit :=
  fun s => (set_comments (deleteMany q (comments s)) s, inr tt).

Definition Comment_remove (q : Comment.t -> bool) : M unit :=
  fun s => (set_comments (remove q (comments s)) s, inr tt).

(** [Comment.findByIdAndRemove(req.params.commentId)] *)
Definition Comment_findByIdAndRemove (i : string) : M (option Comment.t) :=
  bind (cast_id i)
    (fun o s =>
       let (c, r) :=
         findOneAndRemove (by_comment_id (ObjectId.toString o)) (comments s) in
       (set_comments c s, inr r)).

(** [User.findById(req.params.userId)] *)
Definition User_findById (i : string) : M (option User.t) :=
  bind (cast_id i)
    (fun o s => (s, inr (findOne (by_user_id (ObjectId.toString o)) (users s)))).

(** [User.findOneAndUpdate({_id: i}, ..., {new: true})] *)
Definition User_findOneAndUpdate (i : string) (f : User.t -> User.t)
  : M (option User.t) :=
  bind (cast_id i)
    (fun o s =>
       let (c, r) :=
         findOneAndUpdate (by_user_id (ObjectId.toString o)) f (users s) in
       (set_users c s, inr r)).

Definition UserSession_update (q : UserSession.t -> bool) (f : UserSession.t -> UserSession.t)
  : M unit :=
  fun s => (set_sessions (update q f (sessions s)) s, inr tt).

(** Population reads the store as it is when the query runs. *)
Definition populated (a : Article.t) : M ArticleView :=
  fun s => (s, inr (populate_article s a)).
Definition populated_opt (a : option Article.t) : M (option ArticleView) :=
  fun s => (s, inr (option_map (populate_article s) a)).
Definition populated_all (l : list Article.t) : M (list ArticleView) :=
  fun s => (s, inr (List.map (populate_article s) l)).
Definition with_user (a : option Article.t) : M (option (Article.t * option User.t)) :=
  fun s => (s, inr (option_map (fun d => (d, populate_user s (Article.user d))) a)).
Definition comment_with_user (c : Comment.t) : M CommentView :=
  fun s => (s, inr (populate_comment s c)).

(** Reading a property of a value that may be [null]. *)
Definition deref {A : Type} (o : option A) (prop : string) : M A :=
  match o with
  | Some x => ret x
  | None => throw (TypeError ("Cannot read property '" ++ prop ++ "' of null")%string)
  end.

(** Modelled from the spec: what [Article.create(req.body)] stores is
    decided by the Article model, which is not among the sources.  The spec
    gives the slug on create (title with spaces replaced by hyphens,
    lowercased); the counter starts at zero and the comment sequence empty. *)
Definition Article_new (e : Env) (b : ArticleBody) : Article.t :=
  Article.mk (fresh e) (body_title b) (spec_slug (body_title b)) 0
    (body_user b) [] (now e).

(** Modelled from the spec: the Comment model is not among the sources; a
    new comment takes its article reference, author and text from the body. *)
Definition Comment_new (e : Env) (b : CommentBody) : Comment.t :=
  Comment.mk (fresh e) (body_articleId b) (body_comment_user b) (body_text b) (now e).

(** [{$set: {...req.body, slug}}] *)
Definition set_article_body (b : ArticleBody) (slug : string) (a : Article.t) : Article.t :=
  Article.mk (Article._id a) (body_title b) slug (Article.views a)
    (match body_user b with Some u => Some u | None => Article.user a end)
    (Article.comments a) (Article.created a).

(** [{$set: req.body}] on a user. *)
Definition set_user_body (b : UserBody) (u : User.t) : User.t :=
  User.mk (User._id u)
    (match body_username b with Some n => n | None => User.username u end)
    (match body_isRemoved b with Some r => r | None => User.isRemoved u end)
    (User.created u).

Definition same_title_error : ErrorItem :=
  mkError "Article with the same title already exists" None.

Definition isEmpty (errors : list ErrorItem) : bool :=
  match errors with [] => true | _ => false end.

(** ** The articles router ([src/router/articles.ts]) *)

(** [router.get('/')], lines 10-28. *)
Definition articles_get (skip : nat) : Store -> Store * Outcome :=
  try_next (
    await found <- Article_find_page skip 10 ;;
    await articles <- populated_all found ;;
    res_json (R_articles articles)).

(** [router.post('/', articleValidators, ...)], lines 30-49. *)
Definition articles_post (errors : list ErrorItem) (e : Env) (body : ArticleBody)
  : Store -> Store * Outcome :=
  try_next (
    if negb (isEmpty errors) then res_json (R_errors errors)
    else
      await validationArticle <- Article_findOne (by_title (body_title body)) ;;
      match validationArticle with
      | Some _ => res_json (R_errors [same_title_error])
      | None =>
          await newArticle <- Article_create (Article_new e body) ;;
          await found <- Article_findById (Article._id newArticle) ;;
          await article <- with_user found ;;
          res_json (R_article_created article)
      end).

(** [router.get('/:slug')], lines 51-66. *)
Definition articles_get_slug (slug : string) : Store -> Store * Outcome :=
  try_next (
    await found <- Article_findOne (by_slug slug) ;;
    await article <- populated_opt found ;;
    res_json (R_article article)).

(** [router.put('/:articleId', articleValidators, ...)], lines 68-106. *)
Definition articles_put (errors : list ErrorItem) (articleId : string) (body : ArticleBody)
  : Store -> Store * Outcome :=
  try_next (
    if negb (isEmpty errors) then res_json (R_errors errors)
    else
      await validationArticle <- Article_findOne (by_title (body_title body)) ;;
      if match validationArticle with
         | Some v => negb (String.eqb (ObjectId.toString (Article._id v)) articleId)
         | None => false
         end
      then res_json (R_errors [same_title_error])
      else
        let slug := toLowerCase (join "-" (split " "%char (body_title body))) in
        await updated <- Article_findByIdAndUpdate articleId (set_article_body body slug) ;;
        await article <- populated_opt updated ;;
        res_json (R_article article)).

(** [router.delete('/:articleId')], lines 108-120. *)
Definition articles_delete (articleId : string) : Store -> Store * Outcome :=
  try_next (
    await article <- Article_findByIdAndRemove articleId ;;
    match article with
    | Some a =>
        exec Comment_deleteMany (comment_of_article (Article._id a)) ;;
        res_json (R_article_removed a)
    | None => no_response
    end).

(** [router.get('/views/:slug')], lines 122-141. *)
Definition articles_views (slug : string) : Store -> Store * Outcome :=
  try_next (
    await updated <- Article_findOneAndUpdate (by_slug slug) (Article.inc_views 1) ;;
    await article <- populated_opt updated ;;
    res_json (R_article article)).

(** [router.post('/comments', commentValidators, ...)], lines 143-164. *)
Definition comments_post (errors : list ErrorItem) (e : Env) (body : CommentBody)
  : Store -> Store * Outcome :=
  try_next (
    if negb (isEmpty errors) then res_json (R_errors errors)
    else
      await comment <- Comment_create (Comment_new e body) ;;
      exec Article_updateOne (body_articleId body)
             (Article.push_comment (Comment._id comment)) ;;
      await comment' <- comment_with_user comment ;;
      res_json (R_comment_created comment')).

(** [router.delete('/comments/:commentId')], lines 166-174. *)
Definition comments_delete (commentId : string) : Store -> Store * Outcome :=
  try_next (
    await comment <- Comment_findByIdAndRemove commentId ;;
    res_json (R_comment comment)).

(** ** The users router (second part of [src/models/UserSession.ts]) *)

(** [router.get('/:userId')] *)
Definition users_get (userId : string) : Store -> Store * Outcome :=
  no_catch (
    await user <- User_findById userId ;;
    res_json (R_user user)).

(** [router.put('/:userId', editUserValidators, ...)] *)
Definition users_put (errors : list ErrorItem) (userId : string) (body : UserBody)
  : Store -> Store * Outcome :=
  no_catch (
    if negb (isEmpty errors) then res_json (R_errors errors)
    else
      await user <- User_findOneAndUpdate userId (set_user_body body) ;;
      res_json (R_user user)).

(** [router.delete('/:userId')]: [user._id] is read twice, once for each
    [remove], and each read throws when [user] is [null]. *)
Definition users_delete (userId : string) : Store -> Store * Outcome :=
  no_catch (
    await user <- User_findOneAndUpdate userId (User.set_isRemoved true) ;;
    exec UserSession_update (active_session_of userId) (UserSession.set_isRemoved true) ;;
    await uid <- deref (option_map User._id user) "_id" ;;
    exec Article_remove (article_of_user uid) ;;
    await uid' <- deref (option_map User._id user) "_id" ;;
    exec Comment_remove (comment_of_user uid') ;;
    res_json (R_user user)).

(** ** Routing *)

Inductive Route : Type :=
| GET_articles (skip : nat)
| POST_articles (body : ArticleBody)
| GET_article (slug : string)
| PUT_article (articleId : string) (body : ArticleBody)
| DELETE_article (articleId : string)
| GET_article_views (slug : string)
| POST_comment (body : CommentBody)
| DELETE_comment (commentId : string)
| GET_user (userId : string)
| PUT_user (userId : string) (body : UserBody)
| DELETE_user (userId : string).

(** The validator middleware a route declares before its handler, applied
    to the request: [None] where the route declares none. *)
Definition validationResult (v : Validators) (r : Route) : option (list ErrorItem) :=
  match r with
  | POST_articles body => Some (articleValidators v body)
  | PUT_article _ body => Some (articleValidators v body)
  | POST_comment body => Some (commentValidators v body)
  | PUT_user _ body => Some (editUserValidators v body)
  | _ => None
  end.

Definition handle (v : Validators) (e : Env) (r : Route) : Store -> Store * Outcome :=
  match r with
  | GET_articles skip => articles_get skip
  | POST_articles body => articles_post (articleValidators v body) e body
  | GET_article slug => articles_get_slug slug
  | PUT_article articleId body => articles_put (articleValidators v body) articleId body
  | DELETE_article articleId => articles_delete articleId
  | GET_article_views slug => articles_views slug
  | POST_comment body => comments_post (commentValidators v body) e body
  | DELETE_comment commentId => comments_delete commentId
  | GET_user userId => users_get userId
  | PUT_user userId body => users_put (editUserValidators v body) userId body
  | DELETE_user userId => users_delete userId
  end.

(** ** A small store to run the handlers on *)

Module Sample.
(** Ids: twelve bytes each, and the strings they render as. *)
Definition u1 : Id := dexist "user-alice-1" eq_refl.
Definition u2 : Id := dexist "user-bob---2" eq_refl.
Definition s1 : Id := dexist "session----1" eq_refl.
Definition s2 : Id := dexist "session----2" eq_refl.
Definition s3 : Id := dexist "session----3" eq_refl.
Definition a1 : Id := dexist "article----1" eq_refl.
Definition a2 : Id := dexist "article----2" eq_refl.
Definition a9 : Id := dexist "article----9" eq_refl.
Definition c1 : Id := dexist "comment----1" eq_refl.
Definition c2 : Id := dexist "comment----2" eq_refl.
Definition c3 : Id := dexist "comment----3" eq_refl.

Definition u1_hex : string := Eval vm_compute in ObjectId.toString u1.
Definition u2_hex : string := Eval vm_compute in ObjectId.toString u2.
Definition a1_hex : string := Eval vm_compute in ObjectId.toString a1.
Definition a2_hex : string := Eval vm_compute in ObjectId.toString a2.
Definition c1_hex : string := Eval vm_compute in ObjectId.toString c1.
Definition c3_hex : string := Eval vm_compute in ObjectId.toString c3.

(** Well-formed ids that no document has, the upper-case spelling of
    [a1_hex], and a string that is no id. *)
Definition a7 : Id := dexist "article----7" eq_refl.
Definition u7 : Id := dexist "user-------7" eq_refl.
Definition c7 : Id := dexist "comment----7" eq_refl.
Definition a7_hex : string := Eval vm_compute in ObjectId.toString a7.
Definition u7_hex : string := Eval vm_compute in ObjectId.toString u7.
Definition c7_hex : string := Eval vm_compute in ObjectId.toString c7.
Definition a1_upper : string := "61727469636C652D2D2D2D31".
Definition malformed : string := "not-an-object-id".

Definition alice : User.t := User.mk u1 "alice" false 1.
Definition bob : User.t := User.mk u2 "bob" false 2.

Definition session1 : UserSession.t := UserSession.mk s1 u1_hex false 10.
Definition session2 : UserSession.t := UserSession.mk s2 u1_hex false 20.
Definition session3 : UserSession.t := UserSession.mk s3 u2_hex false 30.

Definition hello : Article.t :=
  Article.mk a1 "Hello World" "hello-world" 7 (Some u1) [c1; c2] 100.
Definition second : Article.t :=
  Article.mk a2 "Second Post" "second-post" 0 (Some u2) [c3] 200.

Definition comment1 : Comment.t := Comment.mk c1 a1_hex (Some u2) "nice" 110.
Definition comment2 : Comment.t := Comment.mk c2 a1_hex (Some u1) "thanks" 120.
Definition comment3 : Comment.t := Comment.mk c3 a2_hex (Some u1) "first" 210.

Definition store : Store :=
  mkStore [alice; bob] [session1; session2; session3] [hello; second]
    [comment1; comment2; comment3].

Definition env : Env := mkEnv a9 300.

(** Bodies: a title nobody holds, the title of [second], the title of
    [hello]. *)
Definition free_title : ArticleBody := mkArticleBody "Hello Brave World" None.
Definition title_of_second : ArticleBody := mkArticleBody "Second Post" (Some u1).
Definition title_of_hello : ArticleBody := mkArticleBody "Hello World" (Some u2).

(** Comment bodies: on [second], and on an id no article has. *)
Definition on_second : CommentBody := mkCommentBody a2_hex (Some u2) "hi".
Definition on_nothing : CommentBody := mkCommentBody a7_hex None "lost".

(** Validators that accept every body, and validators that refuse every
    body. *)
Definition accept_all : Validators :=
  mkValidators (fun _ => []) (fun _ => []) (fun _ => []).
Definition invalid : ErrorItem := mkError "Invalid value" (Some "title").
Definition refuse_all : Validators :=
  mkValidators (fun _ => [invalid]) (fun _ => [invalid]) (fun _ => [invalid]).
End Sample.

(** ** Vocabulary of the properties *)

(** The title check of [router.put]: some article found by the title is not
    the one being updated. *)
Definition title_clash (articleId : string) (title : string) (s : Store) : bool :=
  match findOne (by_title title) (articles s) with
  | Some v => negb (String.eqb (ObjectId.toString (Article._id v)) articleId)
  | None => false
  end.

(** No two articles share a title. *)
Definition unique_titles (s : Store) : Prop :=
  List.NoDup (List.map Article.title (articles s)).

(** The unique index the store keeps on [_id]. *)
Definition unique_article_ids (s : Store) : Prop :=
  List.NoDup (List.map Article._id (articles s)).
Definition unique_comment_ids (s : Store) : Prop :=
  List.NoDup (List.map Comment._id (comments s)).

(** The articles of the store in the order of [.sort({created: -1})]. *)
Definition newest_first (s : Store) : list Article.t :=
  merge_sort newer_article (articles s).

(** Ids and titles both identify an article. *)
Definition articles_wf (s : Store) : Prop :=
  unique_article_ids s /\ unique_titles s.

(** Every stored article carries the slug of its title. *)
Definition slug_in_sync (s : Store) : Prop :=
  List.Forall (fun a => Article.slug a = spec_slug (Article.title a)) (articles s).

(** The sessions the filter of the user-deletion route selects. *)
Definition active_sessions (uid : string) (l : list UserSession.t) : list UserSession.t :=
  List.filter (active_session_of uid) l.

(** The store after [n] view-increment requests on one slug, one after the
    other. *)
Definition after_views (v : Validators) (e : Env) (slug : string) (n : nat) (s : Store)
  : Store :=
  Nat.iter n (fun s' => fst (handle v e (GET_article_views slug) s')) s.

(** The store after user [u1] has been deleted twice. *)
Definition after_two_deletes (s : Store) : Store :=
  fst (users_delete Sample.u1_hex (fst (users_delete Sample.u1_hex s))).

(** A route is mutating when some request to it changes the store. *)
Definition mutating (r : Route) : Prop :=
  exists v e s, fst (handle v e r s) <> s.

(** The routes whose declaration in the router lists a validator chain. *)
Definition declares_validators (r : Route) : bool :=
  match r with
  | POST_articles _ | PUT_article _ _ | POST_comment _ | PUT_user _ _ => true
  | _ => false
  end.

(** The validation gate as the specification words it: every mutating
    route runs a validator, and a failed validation is answered with the
    errors and writes nothing. *)
Definition validation_gate_on_every_mutating_route : Prop :=
  forall r, mutating r ->
  forall v e s,
    exists errors,
      validationResult v r = Some errors /\
      (errors <> [] -> handle v e r s = (s, Json (R_errors errors))).

(** * Properties *)

(** ** ObjectIds *)

Lemma hex_of_length s : String.length (ObjectId.hex_of s) = (2 * String.length s)%nat.
Proof. induction s as [|c r IH]; cbn [ObjectId.hex_of String.length]; lia. Qed.

Lemma unhex_hex_byte c r :
  ObjectId.unhex
    (String (ObjectId.hex_digit (N_of_ascii c / 16))
       (String (ObjectId.hex_digit (N_of_ascii c mod 16)) r)) =
  match ObjectId.unhex r with
  | Some r' => Some (String c r')
  | None => None
  end.
Proof.
  destruct c as [[] [] [] [] [] [] [] []]; cbn; destruct (ObjectId.unhex r); reflexivity.
Qed.

Lemma unhex_hex_of s : ObjectId.unhex (ObjectId.hex_of s) = Some s.
Proof.
  induction s as [|c r IH]; [reflexivity|].
  cbn [ObjectId.hex_of]. now rewrite unhex_hex_byte, IH.
Qed.

Lemma of_bytes_bytes (o : Id) : ObjectId.of_bytes (ObjectId.bytes o) = Some o.
Proof.
  unfold ObjectId.of_bytes.
  destruct (decide (String.length (ObjectId.bytes o) = 12%nat)) as [H|H].
  - f_equal. now apply dsig_eq.
  - destruct H. exact (proj2_dsig o).
Qed.

(** Rendering an ObjectId and casting the string back gives the ObjectId. *)
Lemma cast_toString (o : Id) : ObjectId.cast (ObjectId.toString o) = Some o.
Proof.
  unfold ObjectId.cast, ObjectId.toString.
  rewrite hex_of_length.
  replace (String.length (ObjectId.bytes o)) with 12%nat
    by (symmetry; exact (proj2_dsig o)).
  cbn [Nat.mul Nat.add Nat.eqb].
  rewrite unhex_hex_of. apply of_bytes_bytes.
Qed.

Lemma toString_inj (a b : Id) : ObjectId.toString a = ObjectId.toString b -> a = b.
Proof.
  intros H. pose proof (cast_toString a) as Ha. rewrite H, cast_toString in Ha.
  congruence.
Qed.

Lemma ObjectId_eqb_eq (a b : Id) : ObjectId.eqb a b = true <-> a = b.
Proof.
  unfold ObjectId.eqb. rewrite String.eqb_eq. symmetry. apply dsig_eq.
Qed.

Lemma ObjectId_eqb_refl (a : Id) : ObjectId.eqb a a = true.
Proof. now apply ObjectId_eqb_eq. Qed.

Lemma ObjectId_eqb_neq (a b : Id) : ObjectId.eqb a b = false <-> a <> b.
Proof.
  rewrite <- ObjectId_eqb_eq. destruct (ObjectId.eqb a b); intuition congruence.
Qed.

Lemma toString_eqb (a b : Id) :
  String.eqb (ObjectId.toString a) (ObjectId.toString b) = ObjectId.eqb a b.
Proof.
  destruct (ObjectId.eqb a b) eqn:E.
  - apply ObjectId_eqb_eq in E. subst. apply String.eqb_refl.
  - apply String.eqb_neq. intros H. apply toString_inj in H.
    apply ObjectId_eqb_neq in E. contradiction.
Qed.

Example cast_upper_case :
  ObjectId.cast "61727469636C652D2D2D2D31" = ObjectId.cast Sample.a1_hex /\
  ObjectId.cast "article----1" = ObjectId.cast Sample.a1_hex /\
  ObjectId.cast Sample.malformed = None /\ ObjectId.cast "0" = None.
Proof. repeat split; apply dsig_eq || reflexivity. Qed.

(** ** The collection calls *)

Section CollectionFacts.
Context {A : Type}.
Implicit Types (q : A -> bool) (f : A -> A) (c : list A).

Lemma findOne_Some q c d : findOne q c = Some d -> In d c /\ q d = true.
Proof. unfold findOne. apply find_some. Qed.

Lemma findOne_None q c : findOne q c = None -> forall d, In d c -> q d = false.
Proof. unfold findOne. apply find_none. Qed.

Lemma findOne_None_iff q c : findOne q c = None <-> (forall d, In d c -> q d = false).
Proof.
  split; [apply findOne_None|].
  induction c as [|d c IH]; intros H; [reflexivity|].
  cbn. rewrite (H d (or_introl eq_refl)). apply IH.
  intros d' Hd'. apply H. now right.
Qed.

Lemma updateFirst_no_match q f c : findOne q c = None -> updateFirst q f c = c.
Proof.
  induction c as [|d c IH]; cbn; [reflexivity|].
  destruct (q d); [discriminate|]. intros H. now rewrite IH.
Qed.

Lemma removeFirst_no_match q c : findOne q c = None -> removeFirst q c = c.
Proof.
  induction c as [|d c IH]; cbn; [reflexivity|].
  destruct (q d); [discriminate|]. intros H. now rewrite IH.
Qed.

(** An update that does not touch what the filter looks at is found
    again by the same filter. *)
Lemma findOne_updateFirst q f c :
  (forall d, q (f d) = q d) ->
  findOne q (updateFirst q f c) = option_map f (findOne q c).
Proof.
  intros Hq. induction c as [|d c IH]; cbn; [reflexivity|].
  destruct (q d) eqn:E; cbn.
  - now rewrite Hq, E.
  - now rewrite E.
Qed.

Lemma updateFirst_length q f c : length (updateFirst q f c) = length c.
Proof.
  induction c as [|d c IH]; cbn; [reflexivity|].
  destruct (q d); cbn; [reflexivity|]. now rewrite IH.
Qed.

(** [updateFirst] rewrites one position: before it, nothing matches. *)
Lemma updateFirst_split q f c d :
  findOne q c = Some d ->
  exists pre post,
    c = pre ++ d :: post /\
    updateFirst q f c = pre ++ f d :: post /\
    (forall x, In x pre -> q x = false).
Proof.
  induction c as [|x c IH]; cbn; [discriminate|].
  destruct (q x) eqn:E.
  - intros [= ->]. exists [], c. repeat split. intros ? [].
  - intros H. destruct (IH H) as (pre & post & -> & Hu & Hpre).
    exists (x :: pre), post. cbn. rewrite Hu. repeat split.
    intros y [<-|Hy]; [exact E|now apply Hpre].
Qed.

Lemma removeFirst_split q c d :
  findOne q c = Some d ->
  exists pre post,
    c = pre ++ d :: post /\
    removeFirst q c = pre ++ post /\
    (forall x, In x pre -> q x = false).
Proof.
  induction c as [|x c IH]; cbn; [discriminate|].
  destruct (q x) eqn:E.
  - intros [= ->]. exists [], c. repeat split. intros ? [].
  - intros H. destruct (IH H) as (pre & post & -> & Hu & Hpre).
    exists (x :: pre), post. cbn. rewrite Hu. repeat split.
    intros y [<-|Hy]; [exact E|now apply Hpre].
Qed.

Lemma In_remove q c d : In d (remove q c) <-> In d c /\ q d = false.
Proof.
  unfold remove. rewrite filter_In. now rewrite negb_true_iff.
Qed.

Lemma remove_no_match q c : (forall d, In d c -> q d = false) -> remove q c = c.
Proof.
  unfold remove. induction c as [|d c IH]; cbn; [reflexivity|].
  intros H. rewrite (H d (or_introl eq_refl)). cbn. f_equal.
  apply IH. intros d' Hd'. apply H. now right.
Qed.

(** With the store's unique [_id] index, removing the first match by id
    leaves no match. *)
Lemma findOne_removeFirst_id (id_of : A -> Id) (i : string) c :
  List.NoDup (List.map id_of c) ->
  findOne (fun d => String.eqb (ObjectId.toString (id_of d)) i)
    (removeFirst (fun d => String.eqb (ObjectId.toString (id_of d)) i) c) = None.
Proof.
  induction c as [|d c IH]; cbn; [reflexivity|].
  intros Hnd. apply NoDup_cons_iff in Hnd as [Hnotin Hnd].
  destruct (String.eqb (ObjectId.toString (id_of d)) i) eqn:E.
  - apply String.eqb_eq in E. subst i.
    apply findOne_None_iff. intros x Hx.
    apply String.eqb_neq. intros Heq. apply toString_inj in Heq. apply Hnotin.
    rewrite <- Heq. now apply in_map.
  - cbn. rewrite E. now apply IH.
Qed.
End CollectionFacts.

Section CollectionInvariants.
Context {A : Type} (P : A -> Prop).
Implicit Types (q : A -> bool) (f : A -> A) (c : list A).

Lemma Forall_updateFirst q f c :
  (forall d, P d -> P (f d)) -> List.Forall P c -> List.Forall P (updateFirst q f c).
Proof.
  intros Hf. induction 1 as [|d c Hd Hc IH]; cbn; [constructor|].
  destruct (q d); constructor; auto.
Qed.

Lemma Forall_removeFirst q c : List.Forall P c -> List.Forall P (removeFirst q c).
Proof.
  induction 1 as [|d c Hd Hc IH]; cbn; [constructor|].
  destruct (q d); [assumption|]. now constructor.
Qed.

Lemma Forall_remove q c : List.Forall P c -> List.Forall P (remove q c).
Proof.
  intros H. apply List.Forall_forall. intros d Hd.
  apply In_remove in Hd as [Hd _].
  revert d Hd. now apply List.Forall_forall.
Qed.
End CollectionInvariants.

(** ** Slugs: the handler's split and join against the spec's replace *)

Lemma split_not_nil sep s : split sep s <> [].
Proof.
  destruct s as [|c r]; cbn; [discriminate|].
  destruct (Ascii.eqb c sep); [discriminate|].
  destruct (split sep r); discriminate.
Qed.

Lemma join_cons_char sep c h t :
  join sep (String c h :: t) = String c (join sep (h :: t)).
Proof. destruct t; reflexivity. Qed.

Lemma join_empty_head sep t :
  t <> [] -> join sep (EmptyString :: t) = (sep ++ join sep t)%string.
Proof. destruct t; [congruence|reflexivity]. Qed.

Lemma join_split_replace s : join "-" (split " "%char s) = replace_spaces s.
Proof.
  induction s as [|c r IH]; [reflexivity|].
  cbn [split replace_spaces]. unfold hyphenate.
  destruct (Ascii.eqb c " "%char).
  - rewrite join_empty_head by apply split_not_nil. now rewrite IH.
  - destruct (split " "%char r) as [|h t] eqn:E.
    + now destruct (split_not_nil " "%char r).
    + now rewrite join_cons_char, IH.
Qed.

Lemma slug_of_title_spec title : slug_of_title title = spec_slug title.
Proof. unfold slug_of_title, spec_slug. now rewrite join_split_replace. Qed.

Example slug_hello : slug_of_title "Hello Big  World" = "hello-big--world".
Proof. reflexivity. Qed.

Lemma toLowerCase_length s : String.length (toLowerCase s) = String.length s.
Proof. induction s as [|c r IH]; cbn; congruence. Qed.

Lemma replace_spaces_length s : String.length (replace_spaces s) = String.length s.
Proof. induction s as [|c r IH]; cbn; congruence. Qed.

(** ** Population only reads users and comments *)

Lemma populate_article_ext s1 s2 a :
  users s1 = users s2 -> comments s1 = comments s2 ->
  populate_article s1 a = populate_article s2 a.
Proof.
  intros Hu Hc. unfold populate_article, populate_comments, populate_comment, populate_user.
  now rewrite Hu, Hc.
Qed.

(** Unfolding a handler down to the collection calls. *)
Ltac run_handler :=
  unfold handle, articles_get, articles_post, articles_get_slug, articles_put,
    articles_delete, articles_views, comments_post, comments_delete,
    users_get, users_put, users_delete, try_next, no_catch;
  unfold bind, ret, throw, res_json, no_response, deref,
    Article_find_page, Article_findById, Article_findByIdAndUpdate,
    Article_findOne, Article_create, Article_findOneAndUpdate,
    Article_findByIdAndRemove, Article_updateOne, Article_remove,
    Comment_create, Comment_deleteMany, Comment_remove, Comment_findByIdAndRemove,
    User_findById, User_findOneAndUpdate, UserSession_update, cast_id,
    populated, populated_opt, populated_all, with_user, comment_with_user,
    findOneAndUpdate, findOneAndRemove, update, updateOne, deleteMany;
  cbn [fst snd outcome_of isEmpty negb users sessions articles comments
       set_articles set_comments set_users set_sessions option_map].

(** ** Article create and update *)


Lemma articles_put_invalid errors i b s :
  errors <> [] -> articles_put errors i b s = (s, Json (R_errors errors)).
Proof. intros H. destruct errors; [congruence|]. reflexivity. Qed.

Lemma articles_put_clash i b s :
  title_clash i (body_title b) s = true ->
  articles_put [] i b s = (s, Json (R_errors [same_title_error])).
Proof.
  unfold title_clash. intros H. run_handler. now rewrite H.
Qed.

(** The update goes through: the id is cast, and the first article under
    the cast id is rewritten. *)
Lemma articles_put_proceeds i o b s :
  title_clash i (body_title b) s = false ->
  ObjectId.cast i = Some o ->
  articles_put [] i b s =
    (set_articles
       (updateFirst (by_article_id (ObjectId.toString o))
          (set_article_body b (slug_of_title (body_title b))) (articles s)) s,
     Json (R_article
             (option_map (populate_article s)
                (option_map (set_article_body b (slug_of_title (body_title b)))
                   (findOne (by_article_id (ObjectId.toString o)) (articles s)))))).
Proof.
  unfold title_clash. intros H Hcast. run_handler. rewrite H, Hcast.
  destruct s as [us ss arts cs]. cbn.
  destruct (findOne (by_article_id (ObjectId.toString o)) arts); reflexivity.
Qed.

(** A string that is no ObjectId gets past the title check and fails at
    the cast: the error goes to [next], nothing is written. *)
Lemma articles_put_cast_error i b s :
  title_clash i (body_title b) s = false ->
  ObjectId.cast i = None ->
  articles_put [] i b s = (s, Next (CastError i "_id")).
Proof.
  unfold title_clash. intros H Hcast. run_handler. now rewrite H, Hcast.
Qed.

Lemma by_article_id_true i a :
  by_article_id i a = true <-> ObjectId.toString (Article._id a) = i.
Proof. unfold by_article_id. apply String.eqb_eq. Qed.

(** A document found under a string is found under its own id, rendered:
    the string is canonical and casts to that id. *)
Lemma cast_rendered (i : string) (o : Id) :
  ObjectId.toString o = i -> ObjectId.cast i = Some o.
Proof. intros <-. apply cast_toString. Qed.

Lemma found_article_cast i c a :
  findOne (by_article_id i) c = Some a ->
  ObjectId.cast i = Some (Article._id a) /\ ObjectId.toString (Article._id a) = i.
Proof.
  intros H. apply findOne_Some in H as [_ H]. apply by_article_id_true in H.
  split; [now apply cast_rendered|exact H].
Qed.

Lemma by_title_true t a : by_title t a = true <-> Article.title a = t.
Proof. unfold by_title. apply String.eqb_eq. Qed.

Lemma title_clash_false i t s :
  (forall x, In x (articles s) -> Article.title x = t ->
             ObjectId.toString (Article._id x) = i) ->
  title_clash i t s = false.
Proof.
  intros H. unfold title_clash.
  destruct (findOne (by_title t) (articles s)) as [v|] eqn:E; [|reflexivity].
  apply findOne_Some in E as [Hin Ht]. apply by_title_true in Ht.
  rewrite (H v Hin Ht). now rewrite String.eqb_refl.
Qed.

Lemma findOne_app_r {A : Type} (q : A -> bool) (c : list A) (d : A) :
  findOne q c = None -> q d = true -> findOne q (c ++ [d]) = Some d.
Proof.
  induction c as [|x c IH]; cbn; intros H Hd.
  - now rewrite Hd.
  - destruct (q x); [discriminate|]. now apply IH.
Qed.

Lemma create_fresh {A : Type} (id_of : A -> Id) (d : A) (c : list A) :
  findOne (fun x => String.eqb (ObjectId.toString (id_of x))
                      (ObjectId.toString (id_of d))) c = None ->
  create id_of d c = inr (c ++ [d]).
Proof.
  intros H. unfold create.
  replace (existsb _ c) with false; [reflexivity|].
  symmetry. apply not_true_is_false. intros Hex.
  apply existsb_exists in Hex as (x & Hx & Hq).
  apply (findOne_None _ _ H) in Hx. cbn beta in Hx.
  rewrite toString_eqb in Hx. congruence.
Qed.

Lemma create_taken {A : Type} (id_of : A -> Id) (d x : A) (c : list A) :
  In x c -> ObjectId.toString (id_of x) = ObjectId.toString (id_of d) ->
  exists err, create id_of d c = inl err.
Proof.
  intros Hx Heq. unfold create.
  replace (existsb _ c) with true; [eauto|].
  symmetry. apply existsb_exists. exists x. split; [exact Hx|].
  apply toString_inj in Heq. now apply ObjectId_eqb_eq.
Qed.

Lemma articles_post_creates e b s :
  findOne (by_title (body_title b)) (articles s) = None ->
  findOne (by_article_id (ObjectId.toString (fresh e))) (articles s) = None ->
  articles_post [] e b s =
    (set_articles (articles s ++ [Article_new e b]) s,
     Json (R_article_created
             (Some (Article_new e b, populate_user s (body_user b))))).
Proof.
  intros Ht Hid. run_handler. rewrite Ht.
  rewrite (create_fresh Article._id (Article_new e b)) by exact Hid.
  unfold ret. cbn [articles set_articles Article._id Article_new].
  rewrite (findOne_app_r _ _ (Article_new e b) Hid)
    by (apply by_article_id_true; reflexivity).
  destruct s; reflexivity.
Qed.

(** C2. For every article create or update that supplies a title, the
    stored article's slug is the title with each space replaced by a hyphen
    and then lowercased.  On a create that passes validation with a free
    title the new record is stored with that slug; on an update that passes
    validation and the title check, the article found under the id
    afterwards carries the new title and the slug computed from it, and it
    is the one returned. *)
Theorem article_slug_tracks_title (v : Validators) (e : Env) (b : ArticleBody) (s : Store) :
  articleValidators v b = [] ->
  (findOne (by_title (body_title b)) (articles s) = None ->
   findOne (by_article_id (ObjectId.toString (fresh e))) (articles s) = None ->
   exists a,
     fst (handle v e (POST_articles b) s) = set_articles (articles s ++ [a]) s /\
     Article.title a = body_title b /\
     Article.slug a = spec_slug (Article.title a))
  /\
  (forall i a0,
     findOne (by_article_id i) (articles s) = Some a0 ->
     (forall x, In x (articles s) -> Article.title x = body_title b ->
                ObjectId.toString (Article._id x) = i) ->
     exists a,
       findOne (by_article_id i) (articles (fst (handle v e (PUT_article i b) s))) = Some a /\
       snd (handle v e (PUT_article i b) s) = Json (R_article (Some (populate_article s a))) /\
       Article.title a = body_title b /\
       Article.slug a = spec_slug (Article.title a)).
Proof.
  intros Hv. split.
  - intros Ht Hid. exists (Article_new e b). cbn [handle]. rewrite Hv.
    rewrite articles_post_creates by assumption. now cbn.
  - intros i a0 Ha0 Hfree.
    exists (set_article_body b (slug_of_title (body_title b)) a0).
    cbn [handle]. rewrite Hv.
    destruct (found_article_cast _ _ _ Ha0) as [Hcast Hi].
    rewrite (articles_put_proceeds i (Article._id a0))
      by (try apply title_clash_false; assumption).
    rewrite Hi.
    cbn [fst snd articles set_articles]. rewrite Ha0. cbn [option_map].
    split; [|split; [reflexivity|split; [reflexivity|apply slug_of_title_spec]]].
    rewrite findOne_updateFirst by reflexivity.
    now rewrite Ha0.
Qed.

Lemma article_slug_tracks_title_witness :
  (exists a,
     fst (handle Sample.accept_all Sample.env (POST_articles Sample.free_title) Sample.store)
       = set_articles (articles Sample.store ++ [a]) Sample.store /\
     Article.title a = "Hello Brave World" /\
     Article.slug a = spec_slug (Article.title a))
  /\
  (exists a,
     findOne (by_article_id Sample.a1_hex)
       (articles (fst (handle Sample.accept_all Sample.env
                         (PUT_article Sample.a1_hex Sample.free_title) Sample.store)))
       = Some a /\
     snd (handle Sample.accept_all Sample.env
            (PUT_article Sample.a1_hex Sample.free_title) Sample.store)
       = Json (R_article (Some (populate_article Sample.store a))) /\
     Article.title a = "Hello Brave World" /\
     Article.slug a = spec_slug (Article.title a)).
Proof.
  destruct (article_slug_tracks_title Sample.accept_all Sample.env Sample.free_title
              Sample.store eq_refl) as [Hcreate Hupdate].
  split.
  - apply Hcreate; reflexivity.
  - apply (Hupdate Sample.a1_hex Sample.hello); [reflexivity|].
    intros x [<-|[<-|[]]] Ht; cbn in Ht; discriminate.
Defined.

(** ** Title uniqueness *)


Lemma NoDup_map_eq {A B : Type} (f : A -> B) (l : list A) (x y : A) :
  List.NoDup (List.map f l) -> In x l -> In y l -> f x = f y -> x = y.
Proof.
  induction l as [|d l IH]; cbn; [intros _ []|].
  intros Hnd Hx Hy Hf. apply NoDup_cons_iff in Hnd as [Hnotin Hnd].
  destruct Hx as [<-|Hx], Hy as [<-|Hy]; auto.
  - exfalso. apply Hnotin. rewrite Hf. now apply in_map.
  - exfalso. apply Hnotin. rewrite <- Hf. now apply in_map.
Qed.

Lemma findOne_is_Some {A : Type} (q : A -> bool) (c : list A) (d : A) :
  In d c -> q d = true -> exists d', findOne q c = Some d'.
Proof.
  intros Hin Hq. destruct (findOne q c) as [d'|] eqn:E; [eauto|].
  now rewrite (findOne_None _ _ E d Hin) in Hq.
Qed.


Lemma articles_post_invalid errors e b s :
  errors <> [] -> articles_post errors e b s = (s, Json (R_errors errors)).
Proof. intros H. destruct errors; [congruence|]. reflexivity. Qed.

Lemma articles_post_duplicate e b s v0 :
  findOne (by_title (body_title b)) (articles s) = Some v0 ->
  articles_post [] e b s = (s, Json (R_errors [same_title_error])).
Proof. intros H. run_handler. now rewrite H. Qed.

(** C3. An article-creation request whose title equals the title of a stored
    article writes nothing, and when it has passed the validators in front
    of the handler it is answered with the duplicate-title error. *)
Theorem create_with_taken_title_rejected
    (v : Validators) (e : Env) (b : ArticleBody) (s : Store) :
  (exists a, In a (articles s) /\ Article.title a = body_title b) ->
  fst (handle v e (POST_articles b) s) = s /\
  (articleValidators v b = [] ->
   handle v e (POST_articles b) s = (s, Json (R_errors [same_title_error]))).
Proof.
  intros (a & Hin & Ht).
  destruct (findOne_is_Some (by_title (body_title b)) _ a Hin) as [v0 Hv0].
  { now apply by_title_true. }
  cbn [handle]. split.
  - destruct (articleValidators v b) as [|x errors] eqn:E.
    + now rewrite (articles_post_duplicate e b s v0 Hv0).
    + now rewrite articles_post_invalid.
  - intros ->. exact (articles_post_duplicate e b s v0 Hv0).
Qed.

Lemma create_with_taken_title_rejected_witness :
  fst (handle Sample.accept_all Sample.env (POST_articles Sample.title_of_second)
         Sample.store) = Sample.store /\
  handle Sample.accept_all Sample.env (POST_articles Sample.title_of_second) Sample.store
    = (Sample.store, Json (R_errors [same_title_error])).
Proof.
  destruct (create_with_taken_title_rejected Sample.accept_all Sample.env
              Sample.title_of_second Sample.store) as [Hstore Hanswer].
  - exists Sample.second. split; [right; left; reflexivity|reflexivity].
  - split; [exact Hstore|apply Hanswer; reflexivity].
Defined.


Lemma sample_unique_titles : unique_titles Sample.store.
Proof.
  unfold unique_titles. cbn.
  constructor; [intros [H|[]]; discriminate|].
  constructor; [intros []|constructor].
Defined.


(** ** Deleting an article or a comment *)

Lemma articles_delete_cast_error i s :
  ObjectId.cast i = None ->
  articles_delete i s = (s, Next (CastError i "_id")).
Proof. intros H. run_handler. now rewrite H. Qed.

Lemma articles_delete_found i o a s :
  ObjectId.cast i = Some o ->
  findOne (by_article_id (ObjectId.toString o)) (articles s) = Some a ->
  articles_delete i s =
    (mkStore (users s) (sessions s)
       (removeFirst (by_article_id (ObjectId.toString o)) (articles s))
       (deleteMany (comment_of_article (Article._id a)) (comments s)),
     Json (R_article_removed a)).
Proof. intros Hc H. run_handler. rewrite Hc. cbn. rewrite H. reflexivity. Qed.

Lemma articles_delete_missing i o s :
  ObjectId.cast i = Some o ->
  findOne (by_article_id (ObjectId.toString o)) (articles s) = None ->
  articles_delete i s = (s, NoResponse).
Proof.
  intros Hc H. run_handler. rewrite Hc. cbn. rewrite H, (removeFirst_no_match _ _ H).
  destruct s; reflexivity.
Qed.

(** C5. The id of the request is cast to an ObjectId.  When an article has
    that id, its record is removed, then every comment whose [articleId] is
    that article's id and no other comment, and the answer is the removed
    article; with the store's unique ids no article is found under the id
    afterwards.  When no article has it, the handler answers nothing and
    the store is as it was.  A string that is no ObjectId names no article:
    the cast error goes to [next], the handler sends no body and nothing is
    deleted.  An article found under the string of the request is the one
    the cast selects. *)
Theorem article_removal_cascade (v : Validators) (e : Env) (i : string) (s : Store) :
  (forall o,
     ObjectId.cast i = Some o ->
     (forall a,
        findOne (by_article_id (ObjectId.toString o)) (articles s) = Some a ->
        let s' := fst (handle v e (DELETE_article i) s) in
        snd (handle v e (DELETE_article i) s) = Json (R_article_removed a) /\
        articles s' = removeFirst (by_article_id (ObjectId.toString o)) (articles s) /\
        (unique_article_ids s ->
         findOne (by_article_id (ObjectId.toString o)) (articles s') = None) /\
        (forall c, In c (comments s') <->
                   In c (comments s) /\
                   Comment.articleId c <> ObjectId.toString (Article._id a)) /\
        users s' = users s /\ sessions s' = sessions s)
     /\
     (findOne (by_article_id (ObjectId.toString o)) (articles s) = None ->
      handle v e (DELETE_article i) s = (s, NoResponse)))
  /\
  (ObjectId.cast i = None ->
   handle v e (DELETE_article i) s = (s, Next (CastError i "_id")))
  /\
  (forall a,
     findOne (by_article_id i) (articles s) = Some a ->
     ObjectId.cast i = Some (Article._id a) /\ ObjectId.toString (Article._id a) = i).
Proof.
  cbn [handle]. split; [|split].
  - intros o Hcast. split.
    + intros a Ha. cbv zeta. rewrite (articles_delete_found i o a s Hcast Ha).
      cbn [fst snd users sessions articles comments].
      split; [reflexivity|]. split; [reflexivity|].
      split; [intros Hnd; exact (findOne_removeFirst_id Article._id _ (articles s) Hnd)|].
      split; [|split; reflexivity].
      intros c. unfold deleteMany. rewrite In_remove. unfold comment_of_article.
      now rewrite String.eqb_neq.
    + now apply articles_delete_missing.
  - apply articles_delete_cast_error.
  - intros a. apply found_article_cast.
Qed.

Lemma article_removal_cascade_witness :
  (snd (handle Sample.accept_all Sample.env (DELETE_article Sample.a1_hex) Sample.store)
     = Json (R_article_removed Sample.hello) /\
   articles (fst (handle Sample.accept_all Sample.env (DELETE_article Sample.a1_hex)
                    Sample.store))
     = [Sample.second] /\
   comments (fst (handle Sample.accept_all Sample.env (DELETE_article Sample.a1_hex)
                    Sample.store))
     = [Sample.comment3])
  /\
  handle Sample.accept_all Sample.env (DELETE_article Sample.a7_hex) Sample.store
    = (Sample.store, NoResponse)
  /\
  handle Sample.accept_all Sample.env (DELETE_article Sample.malformed) Sample.store
    = (Sample.store, Next (CastError Sample.malformed "_id")).
Proof.
  split; [|split].
  - destruct (article_removal_cascade Sample.accept_all Sample.env Sample.a1_hex
                Sample.store) as [Hcast _].
    destruct (Hcast Sample.a1 (cast_toString Sample.a1)) as [Hfound _].
    destruct (Hfound Sample.hello eq_refl) as (Hanswer & _).
    split; [exact Hanswer|split; reflexivity].
  - destruct (article_removal_cascade Sample.accept_all Sample.env Sample.a7_hex
                Sample.store) as [Hcast _].
    destruct (Hcast Sample.a7 (cast_toString Sample.a7)) as [_ Hmissing].
    now apply Hmissing.
  - destruct (article_removal_cascade Sample.accept_all Sample.env Sample.malformed
                Sample.store) as (_ & Herror & _).
    now apply Herror.
Defined.

(** The upper-case spelling of an id casts to the same ObjectId: the
    article is removed with its comments. *)
Example article_removal_upper_case :
  handle Sample.accept_all Sample.env (DELETE_article Sample.a1_upper) Sample.store
    = handle Sample.accept_all Sample.env (DELETE_article Sample.a1_hex) Sample.store.
Proof. reflexivity. Qed.

Lemma comments_delete_cast i o s :
  ObjectId.cast i = Some o ->
  comments_delete i s =
    (set_comments (removeFirst (by_comment_id (ObjectId.toString o)) (comments s)) s,
     Json (R_comment (findOne (by_comment_id (ObjectId.toString o)) (comments s)))).
Proof. intros H. run_handler. now rewrite H. Qed.

Lemma comments_delete_cast_error i s :
  ObjectId.cast i = None ->
  comments_delete i s = (s, Next (CastError i "_id")).
Proof. intros H. run_handler. now rewrite H. Qed.

(** C6. Deleting a comment never touches users, sessions or articles.  When
    the id of the request casts to an ObjectId, the first comment with that
    id is removed and returned ([null] when there is none) and nothing else
    changes: an article that listed the comment still lists it, while (ids
    being unique) no comment is found under that id any more.  When the
    string is no ObjectId, the cast error goes to [next] and the store is
    as it was. *)
Theorem comment_removal_keeps_articles (v : Validators) (e : Env) (i : string) (s : Store) :
  let s' := fst (handle v e (DELETE_comment i) s) in
  articles s' = articles s /\ users s' = users s /\ sessions s' = sessions s /\
  (forall o,
     ObjectId.cast i = Some o ->
     snd (handle v e (DELETE_comment i) s)
       = Json (R_comment (findOne (by_comment_id (ObjectId.toString o)) (comments s))) /\
     comments s' = removeFirst (by_comment_id (ObjectId.toString o)) (comments s) /\
     (forall a, In a (articles s) -> In o (Article.comments a) ->
        In a (articles s') /\ In o (Article.comments a) /\
        (unique_comment_ids s ->
         findOne (by_comment_id (ObjectId.toString o)) (comments s') = None)))
  /\
  (ObjectId.cast i = None ->
   handle v e (DELETE_comment i) s = (s, Next (CastError i "_id")))
  /\
  (forall c,
     findOne (by_comment_id i) (comments s) = Some c ->
     ObjectId.cast i = Some (Comment._id c)).
Proof.
  cbn [handle]. cbv zeta.
  assert (Hfound : forall c, findOne (by_comment_id i) (comments s) = Some c ->
                             ObjectId.cast i = Some (Comment._id c)).
  { intros c Hc. apply findOne_Some in Hc as [_ Hc].
    apply String.eqb_eq in Hc. now apply cast_rendered. }
  destruct (ObjectId.cast i) as [o|] eqn:Hcast.
  - rewrite (comments_delete_cast i o s Hcast).
    cbn [fst snd users sessions articles comments set_comments].
    repeat (split; [reflexivity|]).
    split; [|split; [discriminate|exact Hfound]].
    intros o' [= <-]. repeat (split; [reflexivity|]).
    intros a Hin Href. split; [exact Hin|]. split; [exact Href|].
    intros Hnd. exact (findOne_removeFirst_id Comment._id _ (comments s) Hnd).
  - rewrite (comments_delete_cast_error i s Hcast).
    cbn [fst snd]. repeat (split; [reflexivity|]).
    split; [discriminate|]. split; [reflexivity|exact Hfound].
Qed.

Lemma sample_unique_comment_ids : unique_comment_ids Sample.store.
Proof.
  unfold unique_comment_ids. cbn.
  constructor; [intros [H|[H|[]]]; discriminate|].
  constructor; [intros [H|[]]; discriminate|].
  constructor; [intros []|constructor].
Defined.

Lemma comment_removal_keeps_articles_witness :
  (In Sample.hello
     (articles (fst (handle Sample.accept_all Sample.env (DELETE_comment Sample.c1_hex)
                       Sample.store)))
   /\ In Sample.c1 (Article.comments Sample.hello)
   /\ findOne (by_comment_id Sample.c1_hex)
        (comments (fst (handle Sample.accept_all Sample.env (DELETE_comment Sample.c1_hex)
                          Sample.store)))
      = None)
  /\
  handle Sample.accept_all Sample.env (DELETE_comment Sample.malformed) Sample.store
    = (Sample.store, Next (CastError Sample.malformed "_id")).
Proof.
  split.
  - destruct (comment_removal_keeps_articles Sample.accept_all Sample.env Sample.c1_hex
                Sample.store) as (_ & _ & _ & Hcast & _).
    destruct (Hcast Sample.c1 (cast_toString Sample.c1)) as (_ & _ & Hdangling).
    destruct (Hdangling Sample.hello) as (Hin & Href & Hgone).
    + left; reflexivity.
    + left; reflexivity.
    + split; [exact Hin|split; [exact Href|exact (Hgone sample_unique_comment_ids)]].
  - destruct (comment_removal_keeps_articles Sample.accept_all Sample.env Sample.malformed
                Sample.store) as (_ & _ & _ & _ & Herror & _).
    now apply Herror.
Defined.

(** ** Listing articles *)

#[global] Instance newer_article_total : Total newer_article.
Proof. intros a b. unfold newer_article. lia. Qed.
#[global] Instance newer_article_trans : Transitive newer_article.
Proof. intros a b c. unfold newer_article. lia. Qed.


Lemma newest_first_sorted s : StronglySorted newer_article (newest_first s).
Proof. apply StronglySorted_merge_sort; apply _. Qed.

Lemma newest_first_permutation s : Permutation (newest_first s) (articles s).
Proof. apply merge_sort_Permutation. Qed.

Lemma StronglySorted_take_drop {A : Type} (R : A -> A -> Prop) (l : list A) (n k : nat) :
  StronglySorted R l -> StronglySorted R (take k (drop n l)).
Proof.
  intros H.
  rewrite <- (take_drop n l) in H. apply StronglySorted_app_1_r in H.
  rewrite <- (take_drop k (drop n l)) in H. now apply StronglySorted_app_1_l in H.
Qed.

Lemma articles_get_eq skip s :
  articles_get skip s =
    (s, Json (R_articles
                (List.map (populate_article s) (take 10 (drop skip (newest_first s)))))).
Proof. reflexivity. Qed.

(** C7. The article list for skip count [n] is the populated page of at
    most 10 articles that starts after the first [n] articles of the store
    sorted by creation time, newest first; the store is not changed.  Page
    [skip = 10] continues page [skip = 0]. *)
Theorem article_list_page (v : Validators) (e : Env) (n : nat) (s : Store) :
  exists page,
    handle v e (GET_articles n) s
      = (s, Json (R_articles (List.map (populate_article s) page))) /\
    page = take 10 (drop n (newest_first s)) /\
    (length (List.map (populate_article s) page) <= 10)%nat /\
    List.map a_doc (List.map (populate_article s) page) = page /\
    StronglySorted newer_article page /\
    StronglySorted newer_article (newest_first s) /\
    Permutation (newest_first s) (articles s) /\
    take 10 (drop 0 (newest_first s)) ++ take 10 (drop 10 (newest_first s))
      = take 20 (newest_first s).
Proof.
  exists (take 10 (drop n (newest_first s))).
  cbn [handle]. rewrite articles_get_eq.
  split; [reflexivity|]. split; [reflexivity|].
  split; [rewrite List.length_map, length_take; lia|].
  split; [rewrite List.map_map; cbn; apply List.map_id|].
  split; [apply StronglySorted_take_drop, newest_first_sorted|].
  split; [apply newest_first_sorted|].
  split; [apply newest_first_permutation|].
  cbn [drop]. exact (take_take_drop (newest_first s) 10 10).
Qed.

Example article_list_sample :
  snd (articles_get 1 Sample.store)
    = Json (R_articles [populate_article Sample.store Sample.hello]).
Proof. reflexivity. Qed.

(** ** Counting views *)

Lemma by_slug_inc_views slug n a : by_slug slug (Article.inc_views n a) = by_slug slug a.
Proof. reflexivity. Qed.

Lemma articles_views_eq slug s :
  articles_views slug s =
    (set_articles (updateFirst (by_slug slug) (Article.inc_views 1) (articles s)) s,
     Json (R_article
             (option_map (populate_article s)
                (option_map (Article.inc_views 1) (findOne (by_slug slug) (articles s)))))).
Proof.
  run_handler. destruct s as [us ss arts cs]. cbn.
  destruct (findOne (by_slug slug) arts); reflexivity.
Qed.

(** C8. A view-increment request on a slug that matches a stored article
    adds one to that article's view counter and to no other document, and
    the document returned is the stored one after the increment. *)
Theorem view_increment (v : Validators) (e : Env) (slug : string) (s : Store) (a : Article.t) :
  findOne (by_slug slug) (articles s) = Some a ->
  let s' := fst (handle v e (GET_article_views slug) s) in
  exists a',
    snd (handle v e (GET_article_views slug) s)
      = Json (R_article (Some (populate_article s a'))) /\
    findOne (by_slug slug) (articles s') = Some a' /\
    Article.views a' = Article.views a + 1 /\
    a' = Article.inc_views 1 a /\
    articles s' = updateFirst (by_slug slug) (Article.inc_views 1) (articles s) /\
    users s' = users s /\ sessions s' = sessions s /\ comments s' = comments s.
Proof.
  intros Ha. cbv zeta. cbn [handle]. rewrite articles_views_eq.
  cbn [fst snd users sessions articles comments set_articles].
  exists (Article.inc_views 1 a). rewrite Ha. cbn [option_map].
  split; [reflexivity|].
  split; [|repeat split].
  rewrite findOne_updateFirst by (intros d; apply by_slug_inc_views).
  now rewrite Ha.
Qed.

Lemma view_increment_witness :
  exists a',
    snd (handle Sample.accept_all Sample.env (GET_article_views "hello-world") Sample.store)
      = Json (R_article (Some (populate_article Sample.store a'))) /\
    findOne (by_slug "hello-world")
      (articles (fst (handle Sample.accept_all Sample.env
                        (GET_article_views "hello-world") Sample.store))) = Some a' /\
    Article.views a' = 8.
Proof.
  destruct (view_increment Sample.accept_all Sample.env "hello-world" Sample.store
              Sample.hello eq_refl) as (a' & Hanswer & Hstored & Hviews & _).
  exists a'. split; [exact Hanswer|split; [exact Hstored|exact Hviews]].
Defined.

(** ** The validation gate *)

Lemma comments_post_invalid errors e b s :
  errors <> [] -> comments_post errors e b s = (s, Json (R_errors errors)).
Proof. intros H. destruct errors; [congruence|]. reflexivity. Qed.

Lemma users_put_invalid errors i b s :
  errors <> [] -> users_put errors i b s = (s, Json (R_errors errors)).
Proof. intros H. destruct errors; [congruence|]. reflexivity. Qed.

Lemma delete_article_mutates : mutating (DELETE_article Sample.a1_hex).
Proof.
  exists Sample.accept_all, Sample.env, Sample.store.
  intros H. apply (f_equal (fun x => length (articles x))) in H.
  vm_compute in H. discriminate H.
Qed.

(** C9. Not every mutating route runs a validator:
    [DELETE /articles/:articleId] changes the store and declares none. *)
Lemma validation_gate_not_on_every_mutating_route :
  ~ validation_gate_on_every_mutating_route.
Proof.
  intros H.
  destruct (H (DELETE_article Sample.a1_hex) delete_article_mutates
              Sample.refuse_all Sample.env Sample.store) as (errors & Hsome & _).
  discriminate Hsome.
Qed.

(** C9, for the routes that have the gate. The routes that declare a validator chain are the create
    and update routes; there, the errors the chain found are what
    [validationResult] holds, and when there is any the handler answers
    with them and leaves every collection untouched.  The delete routes and
    the view-increment route declare none. *)
Theorem validated_routes_gate (v : Validators) (e : Env) (r : Route) (s : Store) :
  (declares_validators r = true ->
   exists errors,
     validationResult v r = Some errors /\
     (errors <> [] -> handle v e r s = (s, Json (R_errors errors))))
  /\
  (declares_validators r = false -> validationResult v r = None)
  /\
  (forall i, declares_validators (DELETE_article i) = false /\
             declares_validators (DELETE_comment i) = false /\
             declares_validators (DELETE_user i) = false /\
             declares_validators (GET_article_views i) = false).
Proof.
  split; [|split].
  - destruct r; cbn [declares_validators]; try discriminate; intros _; cbn [validationResult handle].
    + eexists; split; [reflexivity|]. apply articles_post_invalid.
    + eexists; split; [reflexivity|]. apply articles_put_invalid.
    + eexists; split; [reflexivity|]. apply comments_post_invalid.
    + eexists; split; [reflexivity|]. apply users_put_invalid.
  - destruct r; cbn; congruence.
  - intros i. repeat split.
Qed.

Lemma validated_routes_gate_witness :
  exists errors,
    validationResult Sample.refuse_all
      (PUT_article Sample.a1_hex (mkArticleBody "Anything" None)) = Some errors /\
    handle Sample.refuse_all Sample.env
      (PUT_article Sample.a1_hex (mkArticleBody "Anything" None)) Sample.store
      = (Sample.store, Json (R_errors errors)).
Proof.
  destruct (validated_routes_gate Sample.refuse_all Sample.env
              (PUT_article Sample.a1_hex (mkArticleBody "Anything" None)) Sample.store)
    as [Hgate _].
  destruct (Hgate eq_refl) as (errors & Hsome & Hanswer).
  exists errors. split; [exact Hsome|].
  apply Hanswer. injection Hsome as <-. discriminate.
Defined.

(** ** Deleting a user *)

Lemma by_user_id_true i u :
  by_user_id i u = true <-> ObjectId.toString (User._id u) = i.
Proof. unfold by_user_id. apply String.eqb_eq. Qed.

Lemma found_user_cast i c u :
  findOne (by_user_id i) c = Some u ->
  ObjectId.cast i = Some (User._id u) /\ ObjectId.toString (User._id u) = i.
Proof.
  intros H. apply findOne_Some in H as [_ H]. apply by_user_id_true in H.
  split; [now apply cast_rendered|exact H].
Qed.

(** The first lookup fails on a string that is no ObjectId: the promise of
    the handler is rejected before any write. *)
Lemma users_delete_cast_error i s :
  ObjectId.cast i = None ->
  users_delete i s = (s, Rejected (CastError i "_id")).
Proof. intros H. run_handler. now rewrite H. Qed.

Lemma users_delete_found i o u s :
  ObjectId.cast i = Some o ->
  findOne (by_user_id (ObjectId.toString o)) (users s) = Some u ->
  users_delete i s =
    (mkStore
       (updateFirst (by_user_id (ObjectId.toString o)) (User.set_isRemoved true) (users s))
       (update (active_session_of i) (UserSession.set_isRemoved true) (sessions s))
       (remove (article_of_user (User._id u)) (articles s))
       (remove (comment_of_user (User._id u)) (comments s)),
     Json (R_user (Some (User.set_isRemoved true u)))).
Proof. intros Hc H. run_handler. rewrite Hc. cbn. rewrite H. reflexivity. Qed.

Lemma users_delete_missing i o s :
  ObjectId.cast i = Some o ->
  findOne (by_user_id (ObjectId.toString o)) (users s) = None ->
  users_delete i s =
    (set_sessions
       (update (active_session_of i) (UserSession.set_isRemoved true) (sessions s)) s,
     Rejected (TypeError "Cannot read property '_id' of null")).
Proof.
  intros Hc H. run_handler. rewrite Hc. cbn. rewrite H, (updateFirst_no_match _ _ _ H).
  destruct s; reflexivity.
Qed.



(** C1. Deleting a user is to mark every active session of the user as
    removed.  On the sample store, where user [u1] has the active sessions
    [s1] and [s2], the handler soft-deletes the user, removes the user's
    articles and comments, marks [s1], and leaves [s2] active:
    [UserSession.update] is called without [multi: true]. *)
Theorem user_removal_marks_one_session :
  let s' := fst (handle Sample.accept_all Sample.env (DELETE_user Sample.u1_hex)
                   Sample.store) in
  users s' = [User.set_isRemoved true Sample.alice; Sample.bob] /\
  articles s' = [Sample.second] /\
  comments s' = [Sample.comment1] /\
  sessions s' =
    [UserSession.set_isRemoved true Sample.session1; Sample.session2; Sample.session3] /\
  In Sample.session2 (sessions s') /\
  UserSession.userId Sample.session2 = ObjectId.toString (User._id Sample.alice) /\
  UserSession.isRemoved Sample.session2 = false.
Proof.
  cbv zeta. repeat split. right; left; reflexivity.
Qed.

(** C10. A user-deletion request whose id matches no stored user ends in a
    rejected promise that goes to no [next]: no JSON answer, and users,
    articles and comments are what they were.  When the id is an ObjectId
    that no user has, the lookup gives [null], the session update runs, and
    the promise is rejected with the [TypeError] of reading [_id] of
    [null], before the article and comment cascade.  When the string is no
    ObjectId, the promise is rejected with the cast error of the lookup
    itself, and sessions are untouched as well. *)
Theorem user_removal_of_missing_user (v : Validators) (e : Env) (i : string) (s : Store) :
  (forall o, ObjectId.cast i = Some o ->
             findOne (by_user_id (ObjectId.toString o)) (users s) = None) ->
  let s' := fst (handle v e (DELETE_user i) s) in
  (forall r, snd (handle v e (DELETE_user i) s) <> Json r) /\
  (forall err, snd (handle v e (DELETE_user i) s) <> Next err) /\
  articles s' = articles s /\
  comments s' = comments s /\
  users s' = users s /\
  (forall o, ObjectId.cast i = Some o ->
     (exists m, snd (handle v e (DELETE_user i) s) = Rejected (TypeError m)) /\
     sessions s' = update (active_session_of i) (UserSession.set_isRemoved true)
                     (sessions s)) /\
  (ObjectId.cast i = None ->
   snd (handle v e (DELETE_user i) s) = Rejected (CastError i "_id") /\
   sessions s' = sessions s).
Proof.
  intros H. cbv zeta. cbn [handle].
  destruct (ObjectId.cast i) as [o|] eqn:Hcast.
  - rewrite (users_delete_missing i o s Hcast (H o eq_refl)).
    cbn [fst snd users sessions articles comments set_sessions].
    repeat split; first [discriminate | reflexivity | (eexists; reflexivity)].
  - rewrite (users_delete_cast_error i s Hcast).
    cbn [fst snd].
    repeat split; first [discriminate | reflexivity].
Qed.

Lemma user_removal_of_missing_user_witness :
  ((exists m, snd (handle Sample.accept_all Sample.env (DELETE_user Sample.u7_hex)
                     Sample.store) = Rejected (TypeError m)) /\
   articles (fst (handle Sample.accept_all Sample.env (DELETE_user Sample.u7_hex)
                    Sample.store)) = articles Sample.store /\
   comments (fst (handle Sample.accept_all Sample.env (DELETE_user Sample.u7_hex)
                    Sample.store)) = comments Sample.store)
  /\
  snd (handle Sample.accept_all Sample.env (DELETE_user Sample.malformed) Sample.store)
    = Rejected (CastError Sample.malformed "_id").
Proof.
  split.
  - destruct (user_removal_of_missing_user Sample.accept_all Sample.env Sample.u7_hex
                Sample.store) as (_ & _ & Harts & Hcomments & _ & Hnull & _).
    + intros o Ho. pose proof (cast_toString Sample.u7) as Hc.
      change (ObjectId.toString Sample.u7) with Sample.u7_hex in Hc.
      rewrite Hc in Ho. injection Ho as <-. reflexivity.
    + destruct (Hnull Sample.u7 (cast_toString Sample.u7)) as [Hout _].
      split; [exact Hout|split; [exact Harts|exact Hcomments]].
  - destruct (user_removal_of_missing_user Sample.accept_all Sample.env Sample.malformed
                Sample.store) as (_ & _ & _ & _ & _ & _ & Herror).
    + intros o Ho. discriminate Ho.
    + now apply Herror.
Defined.

(** ** Invariants of the articles collection under every route *)

Lemma articles_after_post errors e b s :
  articles (fst (articles_post errors e b s)) = articles s \/
  articles (fst (articles_post errors e b s)) = articles s ++ [Article_new e b] /\
  errors = [] /\
  findOne (by_title (body_title b)) (articles s) = None /\
  findOne (by_article_id (ObjectId.toString (fresh e))) (articles s) = None.
Proof.
  destruct errors as [|x errors]; [|left; reflexivity].
  destruct (findOne (by_title (body_title b)) (articles s)) as [v0|] eqn:Ht.
  - left. now rewrite (articles_post_duplicate e b s v0 Ht).
  - destruct (findOne (by_article_id (ObjectId.toString (fresh e))) (articles s))
      as [d|] eqn:Hid.
    + left. apply findOne_Some in Hid as [Hin Hd]. apply by_article_id_true in Hd.
      destruct (create_taken Article._id (Article_new e b) d _ Hin Hd) as [err Herr].
      run_handler. rewrite Ht, Herr. reflexivity.
    + right. rewrite (articles_post_creates e b s Ht Hid). now cbn.
Qed.

(** When the title check passes and the id casts, the check passes for
    the canonical spelling of the id as well. *)
Lemma title_clash_cast i o t s :
  title_clash i t s = false -> ObjectId.cast i = Some o ->
  title_clash (ObjectId.toString o) t s = false.
Proof.
  unfold title_clash. intros H Hcast.
  destruct (findOne (by_title t) (articles s)) as [v0|]; [|reflexivity].
  apply negb_false_iff, String.eqb_eq in H.
  apply cast_rendered in H. rewrite Hcast in H. injection H as ->.
  now rewrite String.eqb_refl.
Qed.

Lemma articles_after_put errors i b s :
  articles (fst (articles_put errors i b s)) = articles s \/
  exists o,
    articles (fst (articles_put errors i b s))
      = updateFirst (by_article_id (ObjectId.toString o))
          (set_article_body b (spec_slug (body_title b))) (articles s) /\
    title_clash (ObjectId.toString o) (body_title b) s = false.
Proof.
  destruct errors as [|x errors]; [|left; reflexivity].
  destruct (title_clash i (body_title b) s) eqn:Hc.
  - left. now rewrite articles_put_clash.
  - destruct (ObjectId.cast i) as [o|] eqn:Hcast.
    + right. exists o. rewrite (articles_put_proceeds i o b s Hc Hcast).
      rewrite slug_of_title_spec. split; [reflexivity|].
      exact (title_clash_cast i o _ s Hc Hcast).
    + left. now rewrite (articles_put_cast_error i b s Hc Hcast).
Qed.

Lemma articles_after_comment errors e b s :
  articles (fst (comments_post errors e b s)) = articles s \/
  exists o,
    articles (fst (comments_post errors e b s))
      = updateFirst (by_article_id (ObjectId.toString o))
          (Article.push_comment (fresh e)) (articles s).
Proof.
  destruct errors as [|x errors]; [|left; reflexivity].
  run_handler. destruct (create Comment._id (Comment_new e b) (comments s));
    [left; reflexivity|].
  destruct (ObjectId.cast (body_articleId b)) as [o|]; [right; exists o|left];
    reflexivity.
Qed.

Lemma articles_after_user_removal i s :
  articles (fst (users_delete i s)) = articles s \/
  exists u, articles (fst (users_delete i s)) = remove (article_of_user u) (articles s).
Proof.
  destruct (ObjectId.cast i) as [o|] eqn:Hcast.
  - destruct (findOne (by_user_id (ObjectId.toString o)) (users s)) as [u|] eqn:E.
    + right. exists (User._id u). now rewrite (users_delete_found i o u s Hcast E).
    + left. now rewrite (users_delete_missing i o s Hcast E).
  - left. now rewrite (users_delete_cast_error i s Hcast).
Qed.

Lemma articles_after_delete i s :
  articles (fst (articles_delete i s)) = articles s \/
  exists o,
    ObjectId.cast i = Some o /\
    articles (fst (articles_delete i s))
      = removeFirst (by_article_id (ObjectId.toString o)) (articles s).
Proof.
  destruct (ObjectId.cast i) as [o|] eqn:Hcast.
  - right. exists o. split; [reflexivity|].
    destruct (findOne (by_article_id (ObjectId.toString o)) (articles s)) as [a|] eqn:E.
    + now rewrite (articles_delete_found i o a s Hcast E).
    + rewrite (articles_delete_missing i o s Hcast E).
      now rewrite (removeFirst_no_match _ _ E).
  - left. now rewrite (articles_delete_cast_error i s Hcast).
Qed.

Lemma articles_after_views slug s :
  articles (fst (articles_views slug s))
    = updateFirst (by_slug slug) (Article.inc_views 1) (articles s).
Proof. reflexivity. Qed.

Lemma articles_after_users_put errors i b s :
  articles (fst (users_put errors i b s)) = articles s.
Proof.
  destruct errors; [|reflexivity]. run_handler.
  destruct (ObjectId.cast i); reflexivity.
Qed.

(** X17. The slug equation is an invariant of the store: when every stored
    article carries the slug of its title, so does every stored article
    after any request to any route. *)
Lemma slug_in_sync_preserved (v : Validators) (e : Env) (r : Route) (s : Store) :
  slug_in_sync s -> slug_in_sync (fst (handle v e r s)).
Proof.
  unfold slug_in_sync. intros H. destruct r; cbn [handle]; try exact H.
  - destruct (articles_after_post (articleValidators v body) e body s)
      as [->|(-> & _)]; [exact H|].
    apply List.Forall_app. split; [exact H|]. now repeat constructor.
  - destruct (articles_after_put (articleValidators v body) articleId body s)
      as [->|(o & -> & _)]; [exact H|].
    apply Forall_updateFirst; [|exact H]. reflexivity.
  - destruct (articles_after_delete articleId s) as [->|(o & _ & ->)]; [exact H|].
    apply Forall_removeFirst, H.
  - rewrite articles_after_views.
    apply Forall_updateFirst; [|exact H]. intros d Hd. exact Hd.
  - destruct (articles_after_comment (commentValidators v body) e body s)
      as [->|[o ->]]; [exact H|].
    apply Forall_updateFirst; [|exact H]. intros d Hd. exact Hd.
  - run_handler. destruct (ObjectId.cast commentId); exact H.
  - run_handler. destruct (ObjectId.cast userId); exact H.
  - now rewrite articles_after_users_put.
  - destruct (articles_after_user_removal userId s) as [->|[u ->]]; [exact H|].
    apply Forall_remove, H.
Qed.

Section Keys.
Context {A B : Type} (g : A -> B).
Implicit Types (q : A -> bool) (f : A -> A) (c : list A).

Lemma map_updateFirst q f c :
  (forall d, g (f d) = g d) -> List.map g (updateFirst q f c) = List.map g c.
Proof.
  intros Hf. induction c as [|d c IH]; cbn; [reflexivity|].
  destruct (q d); cbn; [now rewrite Hf|now rewrite IH].
Qed.

Lemma NoDup_map_removeFirst q c :
  List.NoDup (List.map g c) -> List.NoDup (List.map g (removeFirst q c)).
Proof.
  induction c as [|d c IH]; cbn; [trivial|].
  intros Hnd. apply NoDup_cons_iff in Hnd as [Hnotin Hnd].
  destruct (q d); [exact Hnd|]. cbn. constructor; [|now apply IH].
  intros Hin. apply Hnotin. apply in_map_iff in Hin as (x & Hx & Hin).
  apply in_map_iff. exists x. split; [exact Hx|].
  clear -Hin. induction c as [|y c IH]; cbn in *; [contradiction|].
  destruct (q y); [now right|]. destruct Hin as [->|Hin]; [now left|right; auto].
Qed.

Lemma NoDup_map_remove q c :
  List.NoDup (List.map g c) -> List.NoDup (List.map g (remove q c)).
Proof.
  unfold remove. induction c as [|d c IH]; cbn; [trivial|].
  intros Hnd. apply NoDup_cons_iff in Hnd as [Hnotin Hnd].
  destruct (q d); cbn; [now apply IH|].
  constructor; [|now apply IH].
  intros Hin. apply Hnotin. apply in_map_iff in Hin as (x & Hx & Hin).
  apply in_map_iff. exists x. split; [exact Hx|].
  now apply filter_In in Hin as [Hin _].
Qed.

Lemma NoDup_map_snoc c d :
  List.NoDup (List.map g c) -> (forall x, In x c -> g x <> g d) ->
  List.NoDup (List.map g (c ++ [d])).
Proof.
  intros Hnd Hfresh. rewrite List.map_app. cbn.
  apply (Permutation_NoDup (l := g d :: List.map g c)).
  - rewrite <- Permutation_middle. now rewrite List.app_nil_r.
  - constructor; [|exact Hnd].
    intros Hin. apply in_map_iff in Hin as (x & Hx & Hin).
    now apply (Hfresh x Hin).
Qed.
End Keys.

(** Giving the article under id [i] the title [t] keeps titles unique when
    the title check of [router.put] has passed. *)
Lemma unique_titles_after_retitle i b slug s :
  articles_wf s ->
  title_clash i (body_title b) s = false ->
  List.NoDup (List.map Article.title
                (updateFirst (by_article_id i) (set_article_body b slug) (articles s))).
Proof.
  intros [Hids Htitles] Hclash.
  destruct (findOne (by_article_id i) (articles s)) as [a|] eqn:Ha.
  2:{ now rewrite (updateFirst_no_match _ _ _ Ha). }
  destruct (updateFirst_split _ (set_article_body b slug) _ _ Ha)
    as (pre & post & Hc & -> & _).
  apply findOne_Some in Ha as [_ Hida]. apply by_article_id_true in Hida.
  unfold unique_article_ids, unique_titles in *. rewrite Hc in Hids, Htitles.
  rewrite List.map_app in *. cbn [List.map] in *.
  apply (Permutation_NoDup (l := body_title b :: (List.map Article.title pre
                                                   ++ List.map Article.title post))).
  { apply Permutation_middle. }
  constructor; [|exact (NoDup_remove_1 _ _ _ Htitles)].
  intros Hin. apply (NoDup_remove_2 _ _ _ Hids).
  rewrite <- List.map_app in Hin. apply in_map_iff in Hin as (x & Hx & Hin).
  assert (Hxc : In x (articles s)).
  { rewrite Hc. apply in_app_iff. apply in_app_iff in Hin as [?|?]; [left|right; right]; easy. }
  assert (Hxi : ObjectId.toString (Article._id x) = i).
  { unfold title_clash in Hclash.
    destruct (findOne (by_title (body_title b)) (articles s)) as [v0|] eqn:Hv.
    - apply negb_false_iff, String.eqb_eq in Hclash.
      apply findOne_Some in Hv as [Hvin Hvt]. apply by_title_true in Hvt.
      assert (v0 = x) as ->; [|exact Hclash].
      apply (NoDup_map_eq Article.title (articles s)); try assumption; [|congruence].
      unfold unique_titles. rewrite Hc, List.map_app. exact Htitles.
    - apply (findOne_None _ _ Hv) in Hxc. apply String.eqb_neq in Hxc. contradiction. }
  assert (Heq : Article._id a = Article._id x)
    by (apply toString_inj; congruence).
  rewrite Heq, <- List.map_app. now apply in_map.
Qed.

(** X18. Unique ids and unique titles are kept by every route: the title
    checks in front of create and update are what keeps titles apart. *)
Lemma articles_wf_preserved (v : Validators) (e : Env) (r : Route) (s : Store) :
  articles_wf s -> articles_wf (fst (handle v e r s)).
Proof.
  intros Hwf. pose proof Hwf as [Hids Htitles].
  unfold articles_wf, unique_article_ids, unique_titles in *.
  destruct r; cbn [handle]; try exact Hwf.
  - destruct (articles_after_post (articleValidators v body) e body s)
      as [->|(-> & _ & Ht & Hid)]; [exact Hwf|].
    split; apply NoDup_map_snoc; try assumption; intros x Hx.
    + apply (findOne_None _ _ Hid) in Hx. apply String.eqb_neq in Hx.
      cbn [Article._id Article_new]. congruence.
    + apply (findOne_None _ _ Ht) in Hx. now apply String.eqb_neq in Hx.
  - destruct (articles_after_put (articleValidators v body) articleId body s)
      as [->|(o & -> & Hclash)]; [exact Hwf|].
    split.
    + now rewrite map_updateFirst.
    + now apply unique_titles_after_retitle.
  - destruct (articles_after_delete articleId s) as [->|(o & _ & ->)]; [exact Hwf|].
    split; now apply NoDup_map_removeFirst.
  - rewrite articles_after_views. now rewrite !map_updateFirst.
  - destruct (articles_after_comment (commentValidators v body) e body s)
      as [->|[o ->]]; [exact Hwf|].
    now rewrite !map_updateFirst.
  - run_handler. destruct (ObjectId.cast commentId); exact Hwf.
  - run_handler. destruct (ObjectId.cast userId); exact Hwf.
  - now rewrite articles_after_users_put.
  - destruct (articles_after_user_removal userId s) as [->|[u ->]]; [exact Hwf|].
    split; now apply NoDup_map_remove.
Qed.

(** * Further properties of the routers *)

(** ** Fetching by slug *)

Lemma by_slug_true slug a : by_slug slug a = true <-> Article.slug a = slug.
Proof. unfold by_slug. apply String.eqb_eq. Qed.

Lemma articles_get_slug_eq slug s :
  articles_get_slug slug s =
    (s, Json (R_article (option_map (populate_article s) (findOne (by_slug slug) (articles s))))).
Proof. reflexivity. Qed.

(** X1. [GET /articles/:slug] never writes.  When no stored article has the
    slug the answer is [{article: null}], an ordinary JSON answer; when some
    article has it, the answer is a stored article with that slug, populated
    from the store. *)
Theorem fetch_by_slug (v : Validators) (e : Env) (slug : string) (s : Store) :
  fst (handle v e (GET_article slug) s) = s /\
  ((forall a, In a (articles s) -> Article.slug a <> slug) ->
   snd (handle v e (GET_article slug) s) = Json (R_article None)) /\
  ((exists a, In a (articles s) /\ Article.slug a = slug) ->
   exists a',
     snd (handle v e (GET_article slug) s) = Json (R_article (Some (populate_article s a'))) /\
     In a' (articles s) /\ Article.slug a' = slug).
Proof.
  cbn [handle]. rewrite articles_get_slug_eq. cbn [fst snd].
  split; [reflexivity|]. split.
  - intros Hnone.
    replace (findOne (by_slug slug) (articles s)) with (@None Article.t); [reflexivity|].
    symmetry. apply findOne_None_iff. intros d Hd.
    apply not_true_is_false. intros Hq. apply by_slug_true in Hq. now apply (Hnone d).
  - intros (a & Hin & Hslug).
    destruct (findOne_is_Some (by_slug slug) _ a Hin) as [a' Ha'].
    { now apply by_slug_true. }
    exists a'. rewrite Ha'. apply findOne_Some in Ha' as [Hin' Hq].
    apply by_slug_true in Hq. now repeat split.
Qed.

Lemma fetch_by_slug_witness :
  snd (handle Sample.accept_all Sample.env (GET_article "no-such-slug") Sample.store)
    = Json (R_article None) /\
  exists a',
    snd (handle Sample.accept_all Sample.env (GET_article "second-post") Sample.store)
      = Json (R_article (Some (populate_article Sample.store a'))) /\
    In a' (articles Sample.store) /\ Article.slug a' = "second-post".
Proof.
  split.
  - destruct (fetch_by_slug Sample.accept_all Sample.env "no-such-slug" Sample.store)
      as (_ & Hnull & _).
    apply Hnull. intros a [<-|[<-|[]]]; discriminate.
  - destruct (fetch_by_slug Sample.accept_all Sample.env "second-post" Sample.store)
      as (_ & _ & Hfound).
    apply Hfound. exists Sample.second. split; [right; left; reflexivity|reflexivity].
Defined.

(** ** Creating a comment *)

Lemma by_comment_id_true i c :
  by_comment_id i c = true <-> ObjectId.toString (Comment._id c) = i.
Proof. unfold by_comment_id. apply String.eqb_eq. Qed.

Lemma comments_post_creates e o b s :
  findOne (by_comment_id (ObjectId.toString (fresh e))) (comments s) = None ->
  ObjectId.cast (body_articleId b) = Some o ->
  comments_post [] e b s =
    (mkStore (users s) (sessions s)
       (updateFirst (by_article_id (ObjectId.toString o))
          (Article.push_comment (fresh e)) (articles s))
       (comments s ++ [Comment_new e b]),
     Json (R_comment_created (populate_comment s (Comment_new e b)))).
Proof.
  intros Hid Hcast. run_handler.
  rewrite (create_fresh Comment._id (Comment_new e b)) by exact Hid.
  cbn. rewrite Hcast. reflexivity.
Qed.

(** The comment is created before the article is looked up: when the
    [articleId] of the body is no ObjectId, the cast error of the update
    goes to [next]. *)
Lemma comments_post_cast_error e b s :
  findOne (by_comment_id (ObjectId.toString (fresh e))) (comments s) = None ->
  ObjectId.cast (body_articleId b) = None ->
  comments_post [] e b s =
    (set_comments (comments s ++ [Comment_new e b]) s,
     Next (CastError (body_articleId b) "_id")).
Proof.
  intros Hid Hcast. run_handler.
  rewrite (create_fresh Comment._id (Comment_new e b)) by exact Hid.
  cbn. rewrite Hcast. reflexivity.
Qed.

(** X2. A comment that passes validation is stored last in the comments
    collection, its id is appended at the end of the comment sequence of the
    article [req.body.articleId] names, no other article changes, and the
    answer is the new comment with its author populated. *)
Theorem comment_is_appended_to_its_article
    (v : Validators) (e : Env) (b : CommentBody) (s : Store) (a : Article.t) :
  commentValidators v b = [] ->
  findOne (by_comment_id (ObjectId.toString (fresh e))) (comments s) = None ->
  findOne (by_article_id (body_articleId b)) (articles s) = Some a ->
  let s' := fst (handle v e (POST_comment b) s) in
  exists c,
    snd (handle v e (POST_comment b) s) = Json (R_comment_created (populate_comment s c)) /\
    comments s' = comments s ++ [c] /\
    Comment._id c = fresh e /\ Comment.articleId c = body_articleId b /\
    findOne (by_article_id (body_articleId b)) (articles s')
      = Some (Article.push_comment (fresh e) a) /\
    Article.comments (Article.push_comment (fresh e) a) = Article.comments a ++ [fresh e] /\
    (exists pre post,
       articles s = pre ++ a :: post /\
       articles s' = pre ++ Article.push_comment (fresh e) a :: post) /\
    users s' = users s /\ sessions s' = sessions s.
Proof.
  intros Hv Hid Ha. cbv zeta. cbn [handle]. rewrite Hv.
  destruct (found_article_cast _ _ _ Ha) as [Hcast Hi].
  rewrite (comments_post_creates e (Article._id a) b s Hid Hcast). rewrite Hi.
  cbn [fst snd users sessions articles comments].
  exists (Comment_new e b).
  split; [reflexivity|]. split; [reflexivity|]. split; [reflexivity|].
  split; [reflexivity|].
  split; [rewrite findOne_updateFirst by reflexivity; now rewrite Ha|].
  split; [reflexivity|].
  split; [|split; reflexivity].
  destruct (updateFirst_split (by_article_id (body_articleId b))
              (Article.push_comment (fresh e)) _ _ Ha) as (pre & post & Hc & Hu & _).
  now exists pre, post.
Qed.

Lemma comment_is_appended_to_its_article_witness :
  exists c,
    comments (fst (handle Sample.accept_all Sample.env
                     (POST_comment Sample.on_second) Sample.store))
      = comments Sample.store ++ [c] /\
    findOne (by_article_id Sample.a2_hex)
      (articles (fst (handle Sample.accept_all Sample.env
                        (POST_comment Sample.on_second) Sample.store)))
      = Some (Article.push_comment Sample.a9 Sample.second).
Proof.
  destruct (comment_is_appended_to_its_article Sample.accept_all Sample.env
              Sample.on_second Sample.store Sample.second
              eq_refl eq_refl eq_refl)
    as (c & _ & Hcomments & _ & _ & Harticle & _).
  exists c. split; [exact Hcomments|exact Harticle].
Defined.

(** X3. A valid comment whose [articleId] names no stored article leaves
    the articles collection as it was.  When the [articleId] is an ObjectId
    that no article has, the comment is stored all the same and answered as
    created, and no article lists it.  When the [articleId] is no ObjectId,
    the request ends in [next] with the cast error of the article update
    instead of an answer. *)
Theorem comment_on_missing_article_is_orphaned
    (v : Validators) (e : Env) (b : CommentBody) (s : Store) :
  commentValidators v b = [] ->
  findOne (by_comment_id (ObjectId.toString (fresh e))) (comments s) = None ->
  (forall o, ObjectId.cast (body_articleId b) = Some o ->
             findOne (by_article_id (ObjectId.toString o)) (articles s) = None) ->
  (forall a, In a (articles s) -> ~ In (fresh e) (Article.comments a)) ->
  let s' := fst (handle v e (POST_comment b) s) in
  articles s' = articles s /\
  users s' = users s /\ sessions s' = sessions s /\
  (forall o, ObjectId.cast (body_articleId b) = Some o ->
     exists c,
       snd (handle v e (POST_comment b) s)
         = Json (R_comment_created (populate_comment s c)) /\
       comments s' = comments s ++ [c] /\ Comment._id c = fresh e /\
       (forall a, In a (articles s') -> ~ In (Comment._id c) (Article.comments a))) /\
  (ObjectId.cast (body_articleId b) = None ->
   snd (handle v e (POST_comment b) s) = Next (CastError (body_articleId b) "_id")).
Proof.
  intros Hv Hid Ha Hunlisted. cbv zeta. cbn [handle]. rewrite Hv.
  destruct (ObjectId.cast (body_articleId b)) as [o|] eqn:Hcast.
  - rewrite (comments_post_creates e o b s Hid Hcast).
    cbn [fst snd users sessions articles comments].
    rewrite (updateFirst_no_match _ _ _ (Ha o eq_refl)).
    repeat (split; [reflexivity|]). split; [|discriminate].
    intros o' _. exists (Comment_new e b).
    repeat (split; [reflexivity|]). exact Hunlisted.
  - rewrite (comments_post_cast_error e b s Hid Hcast).
    cbn [fst snd users sessions articles comments set_comments].
    repeat (split; [reflexivity|]). split; [discriminate|reflexivity].
Qed.

Lemma sample_a7_cast o :
  ObjectId.cast Sample.a7_hex = Some o -> o = Sample.a7.
Proof.
  intros Ho. pose proof (cast_toString Sample.a7) as Hc.
  change (ObjectId.toString Sample.a7) with Sample.a7_hex in Hc.
  rewrite Hc in Ho. now injection Ho.
Defined.

Lemma sample_fresh_unlisted a :
  In a (articles Sample.store) -> ~ In (fresh Sample.env) (Article.comments a).
Proof.
  intros [<-|[<-|[]]] Hin; cbn in Hin;
    repeat (destruct Hin as [Hin|Hin]; [apply (f_equal ObjectId.bytes) in Hin;
                                         discriminate Hin|]);
    exact Hin.
Defined.

Lemma comment_on_missing_article_is_orphaned_witness :
  (exists c,
     comments (fst (handle Sample.accept_all Sample.env
                      (POST_comment Sample.on_nothing) Sample.store))
       = comments Sample.store ++ [c] /\
     articles (fst (handle Sample.accept_all Sample.env
                      (POST_comment Sample.on_nothing) Sample.store))
       = articles Sample.store)
  /\
  snd (handle Sample.accept_all Sample.env
         (POST_comment (mkCommentBody Sample.malformed None "lost")) Sample.store)
    = Next (CastError Sample.malformed "_id").
Proof.
  split.
  - destruct (comment_on_missing_article_is_orphaned Sample.accept_all Sample.env
                Sample.on_nothing Sample.store eq_refl eq_refl)
      as (Harticles & _ & _ & Hcreated & _).
    + intros o Ho. apply sample_a7_cast in Ho. now subst o.
    + exact sample_fresh_unlisted.
    + destruct (Hcreated Sample.a7 (cast_toString Sample.a7)) as (c & _ & Hcomments & _).
      exists c. split; [exact Hcomments|exact Harticles].
  - destruct (comment_on_missing_article_is_orphaned Sample.accept_all Sample.env
                (mkCommentBody Sample.malformed None "lost") Sample.store eq_refl eq_refl)
      as (_ & _ & _ & _ & Herror).
    + intros o Ho. discriminate Ho.
    + exact sample_fresh_unlisted.
    + now apply Herror.
Defined.

(** ** Populated comments *)

#[global] Instance newer_comment_total : Total newer_comment.
Proof. intros a b. unfold newer_comment. lia. Qed.
#[global] Instance newer_comment_trans : Transitive newer_comment.
Proof. intros a b c. unfold newer_comment. lia. Qed.

Lemma populate_comments_docs s ids :
  List.map c_doc (populate_comments s ids) =
    merge_sort newer_comment
      (List.filter (fun c => existsb (ObjectId.eqb (Comment._id c)) ids) (comments s)).
Proof.
  unfold populate_comments. rewrite List.map_map. cbn. apply List.map_id.
Qed.

Lemma listed_true ids c :
  existsb (ObjectId.eqb (Comment._id c)) ids = true <-> In (Comment._id c) ids.
Proof.
  rewrite existsb_exists. split.
  - intros (x & Hx & Heq). apply ObjectId_eqb_eq in Heq. now rewrite Heq.
  - intros Hin. exists (Comment._id c). split; [exact Hin|apply ObjectId_eqb_refl].
Qed.

Lemma In_populated_docs s ids c :
  In c (List.map c_doc (populate_comments s ids)) <->
  In c (comments s) /\ In (Comment._id c) ids.
Proof.
  rewrite populate_comments_docs. rewrite <- listed_true.
  set (listed := fun c => existsb (ObjectId.eqb (Comment._id c)) ids).
  change (existsb (ObjectId.eqb (Comment._id c)) ids) with (listed c).
  rewrite <- filter_In.
  split; apply Permutation_in;
    [|symmetry]; apply merge_sort_Permutation.
Qed.

Lemma In_populate_comments s ids c :
  In c (comments s) -> In (Comment._id c) ids ->
  In (populate_comment s c) (populate_comments s ids).
Proof.
  intros Hc Hid. unfold populate_comments. apply in_map.
  apply (Permutation_in (l := List.filter
           (fun c => existsb (ObjectId.eqb (Comment._id c)) ids) (comments s))).
  - symmetry. apply merge_sort_Permutation.
  - apply filter_In. split; [exact Hc|now apply listed_true].
Qed.

(** X4. The comments an article is populated with are the stored comments
    whose id the article lists, each once per stored record, ordered newest
    first, each with its own author looked up in the users collection; an
    id with no stored comment behind it contributes nothing. *)
Theorem populated_comments_are_listed_and_sorted (s : Store) (a : Article.t) :
  let view := populate_article s a in
  a_doc view = a /\
  StronglySorted newer_comment (List.map c_doc (a_comments view)) /\
  Permutation (List.map c_doc (a_comments view))
    (List.filter (fun c => existsb (ObjectId.eqb (Comment._id c)) (Article.comments a))
       (comments s)) /\
  (forall c, In c (List.map c_doc (a_comments view)) <->
             In c (comments s) /\ In (Comment._id c) (Article.comments a)) /\
  (forall cv, In cv (a_comments view) ->
              c_user cv = populate_user s (Comment.user (c_doc cv))) /\
  (forall i, In i (Article.comments a) ->
             findOne (by_comment_id (ObjectId.toString i)) (comments s) = None ->
             forall cv, In cv (a_comments view) -> Comment._id (c_doc cv) <> i).
Proof.
  cbv zeta. cbn [a_doc a_comments populate_article].
  split; [reflexivity|].
  split; [rewrite populate_comments_docs; apply StronglySorted_merge_sort; apply _|].
  split; [rewrite populate_comments_docs; apply merge_sort_Permutation|].
  split; [intros c; apply In_populated_docs|].
  split.
  - intros cv Hcv. unfold populate_comments in Hcv.
    apply in_map_iff in Hcv as (c & <- & _). reflexivity.
  - intros i _ Hnone cv Hcv Heq.
    assert (Hdoc : In (c_doc cv) (List.map c_doc (populate_comments s (Article.comments a))))
      by now apply in_map.
    apply In_populated_docs in Hdoc as [Hstored _].
    apply (findOne_None _ _ Hnone) in Hstored.
    apply String.eqb_neq in Hstored. congruence.
Qed.

Example populated_hello :
  List.map (fun cv => Comment._id (c_doc cv))
    (a_comments (populate_article Sample.store Sample.hello)) = [Sample.c2; Sample.c1].
Proof. reflexivity. Qed.

(** X5. Once a comment has been created on an existing article, populating
    that article from the new store shows the comment. *)
Theorem new_comment_is_shown
    (v : Validators) (e : Env) (b : CommentBody) (s : Store) (a : Article.t) :
  commentValidators v b = [] ->
  findOne (by_comment_id (ObjectId.toString (fresh e))) (comments s) = None ->
  findOne (by_article_id (body_articleId b)) (articles s) = Some a ->
  let s' := fst (handle v e (POST_comment b) s) in
  exists a' cv,
    findOne (by_article_id (body_articleId b)) (articles s') = Some a' /\
    In cv (a_comments (populate_article s' a')) /\
    Comment._id (c_doc cv) = fresh e /\
    Comment.text (c_doc cv) = body_text b /\
    snd (handle v e (POST_comment b) s) = Json (R_comment_created cv).
Proof.
  intros Hv Hid Ha. cbv zeta. cbn [handle]. rewrite Hv.
  destruct (found_article_cast _ _ _ Ha) as [Hcast Hi].
  rewrite (comments_post_creates e (Article._id a) b s Hid Hcast). rewrite Hi.
  cbn [fst snd articles].
  set (s' := mkStore _ _ _ _).
  exists (Article.push_comment (fresh e) a), (populate_comment s' (Comment_new e b)).
  split; [rewrite findOne_updateFirst by reflexivity; now rewrite Ha|].
  split; [|repeat split].
  cbn [a_comments populate_article]. apply In_populate_comments.
  - subst s'. cbn [comments]. apply in_app_iff. right. now left.
  - cbn. apply in_app_iff. right. now left.
Qed.

Lemma new_comment_is_shown_witness :
  exists a' cv,
    findOne (by_article_id Sample.a2_hex)
      (articles (fst (handle Sample.accept_all Sample.env
                        (POST_comment Sample.on_second) Sample.store)))
      = Some a' /\
    In cv (a_comments (populate_article
             (fst (handle Sample.accept_all Sample.env
                     (POST_comment Sample.on_second) Sample.store)) a')) /\
    Comment._id (c_doc cv) = Sample.a9.
Proof.
  destruct (new_comment_is_shown Sample.accept_all Sample.env
              Sample.on_second Sample.store Sample.second
              eq_refl eq_refl eq_refl)
    as (a' & cv & Hfound & Hshown & Hid & _).
  exists a', cv. split; [exact Hfound|split; [exact Hshown|exact Hid]].
Defined.

Lemma In_removeFirst_other {A : Type} (q : A -> bool) (c : list A) (d : A) :
  In d c -> q d = false -> In d (removeFirst q c).
Proof.
  induction c as [|x c IH]; cbn; [trivial|].
  intros [<-|Hin] Hq.
  - rewrite Hq. now left.
  - destruct (q x); [exact Hin|]. right. now apply IH.
Qed.

Lemma In_removeFirst {A : Type} (q : A -> bool) (c : list A) (d : A) :
  In d (removeFirst q c) -> In d c.
Proof.
  induction c as [|x c IH]; cbn; [trivial|].
  destruct (q x); [now right|]. intros [<-|Hin]; [now left|right; auto].
Qed.

(** X6. After a comment-deletion request every article is as it was.  When
    the id of the request casts to an ObjectId [o] (comment ids being
    unique), populating an article yields no comment with id [o], although
    the article may still list [o], and every other listed comment is
    populated as before.  When the string is no ObjectId the store is
    unchanged. *)
Theorem deleted_comment_is_not_populated
    (v : Validators) (e : Env) (i : string) (s : Store) (a : Article.t) :
  unique_comment_ids s ->
  In a (articles s) ->
  let s' := fst (handle v e (DELETE_comment i) s) in
  In a (articles s') /\
  (forall o, ObjectId.cast i = Some o ->
     (forall cv, In cv (a_comments (populate_article s' a)) ->
                 Comment._id (c_doc cv) <> o) /\
     (forall c, In c (comments s) -> Comment._id c <> o ->
                In (Comment._id c) (Article.comments a) ->
                In (populate_comment s c) (a_comments (populate_article s' a)))) /\
  (ObjectId.cast i = None -> s' = s).
Proof.
  intros Hnd Hin. cbv zeta. cbn [handle].
  destruct (ObjectId.cast i) as [o|] eqn:Hcast.
  2:{ rewrite (comments_delete_cast_error i s Hcast). cbn [fst].
      split; [exact Hin|]. split; [discriminate|reflexivity]. }
  rewrite (comments_delete_cast i o s Hcast).
  cbn [fst]. set (s' := set_comments _ s).
  split; [exact Hin|]. split; [|discriminate].
  intros o' [= <-]. split.
  - intros cv Hcv Heq.
    assert (Hdoc : In (c_doc cv) (List.map c_doc (a_comments (populate_article s' a))))
      by now apply in_map.
    apply In_populated_docs in Hdoc as [Hstored _].
    subst s'. cbn [comments set_comments] in Hstored.
    pose proof (findOne_removeFirst_id Comment._id (ObjectId.toString o) (comments s) Hnd)
      as Hgone.
    apply (findOne_None _ _ Hgone) in Hstored.
    apply String.eqb_neq in Hstored. congruence.
  - intros c Hc Hne Hlisted.
    change (populate_comment s c) with (populate_comment s' c).
    cbn [a_comments populate_article]. apply In_populate_comments; [|exact Hlisted].
    subst s'. cbn [comments set_comments].
    apply In_removeFirst_other; [exact Hc|].
    apply not_true_is_false. intros Hq. apply by_comment_id_true in Hq.
    now apply toString_inj in Hq.
Qed.

Lemma deleted_comment_is_not_populated_witness :
  In Sample.c1 (Article.comments Sample.hello) /\
  List.map (fun cv => Comment._id (c_doc cv))
    (a_comments (populate_article
       (fst (handle Sample.accept_all Sample.env (DELETE_comment Sample.c1_hex)
               Sample.store))
       Sample.hello)) = [Sample.c2] /\
  forall cv,
    In cv (a_comments (populate_article
             (fst (handle Sample.accept_all Sample.env (DELETE_comment Sample.c1_hex)
                     Sample.store))
             Sample.hello)) ->
    Comment._id (c_doc cv) <> Sample.c1.
Proof.
  split; [left; reflexivity|]. split; [reflexivity|].
  destruct (deleted_comment_is_not_populated Sample.accept_all Sample.env Sample.c1_hex
              Sample.store Sample.hello sample_unique_comment_ids
              (or_introl eq_refl)) as (_ & Hcast & _).
  destruct (Hcast Sample.c1 (cast_toString Sample.c1)) as [Hgone _].
  exact Hgone.
Defined.

(** ** The users router *)

Lemma users_put_cast i o b s :
  ObjectId.cast i = Some o ->
  users_put [] i b s =
    (set_users (updateFirst (by_user_id (ObjectId.toString o)) (set_user_body b) (users s)) s,
     Json (R_user (option_map (set_user_body b)
                     (findOne (by_user_id (ObjectId.toString o)) (users s))))).
Proof. intros H. run_handler. now rewrite H. Qed.

Lemma users_put_cast_error i b s :
  ObjectId.cast i = None ->
  users_put [] i b s = (s, Rejected (CastError i "_id")).
Proof. intros H. run_handler. now rewrite H. Qed.

Lemma users_get_cast i o s :
  ObjectId.cast i = Some o ->
  users_get i s = (s, Json (R_user (findOne (by_user_id (ObjectId.toString o)) (users s)))).
Proof. intros H. run_handler. now rewrite H. Qed.

Lemma users_get_cast_error i s :
  ObjectId.cast i = None ->
  users_get i s = (s, Rejected (CastError i "_id")).
Proof. intros H. run_handler. now rewrite H. Qed.

(** X7. [PUT /users/:userId] with a valid body.  The id is cast to an
    ObjectId: when no user has it, the answer is [{user: null}] and nothing
    is written; when some user has it, the fields the body supplies are set
    on that user and on no other record, the answer is the user as now
    stored, and sessions, articles and comments are not touched.  When the
    string is no ObjectId, the promise of the handler is rejected with the
    cast error (the users router has no [catch]) and nothing is written. *)
Theorem user_update (v : Validators) (e : Env) (i : string) (b : UserBody) (s : Store) :
  editUserValidators v b = [] ->
  (forall o,
     ObjectId.cast i = Some o ->
     (findOne (by_user_id (ObjectId.toString o)) (users s) = None ->
      handle v e (PUT_user i b) s = (s, Json (R_user None)))
     /\
     (forall u,
        findOne (by_user_id (ObjectId.toString o)) (users s) = Some u ->
        let s' := fst (handle v e (PUT_user i b) s) in
        let u' := set_user_body b u in
        snd (handle v e (PUT_user i b) s) = Json (R_user (Some u')) /\
        findOne (by_user_id (ObjectId.toString o)) (users s') = Some u' /\
        User._id u' = User._id u /\
        (forall n, body_username b = Some n -> User.username u' = n) /\
        (body_username b = None -> User.username u' = User.username u) /\
        (exists pre post, users s = pre ++ u :: post /\ users s' = pre ++ u' :: post) /\
        sessions s' = sessions s /\ articles s' = articles s /\ comments s' = comments s))
  /\
  (ObjectId.cast i = None ->
   handle v e (PUT_user i b) s = (s, Rejected (CastError i "_id"))).
Proof.
  intros Hv. cbn [handle]. rewrite Hv. split.
  - intros o Hcast. rewrite (users_put_cast i o b s Hcast). split.
    + intros Hnone. rewrite Hnone, (updateFirst_no_match _ _ _ Hnone).
      destruct s; reflexivity.
    + intros u Hu. cbv zeta. cbn [fst snd users sessions articles comments set_users].
      rewrite Hu. cbn [option_map].
      split; [reflexivity|].
      split; [rewrite findOne_updateFirst by reflexivity; now rewrite Hu|].
      split; [reflexivity|].
      split; [intros n Hn; cbn; now rewrite Hn|].
      split; [intros Hn; cbn; now rewrite Hn|].
      split; [|repeat split].
      destruct (updateFirst_split (by_user_id (ObjectId.toString o)) (set_user_body b) _ _ Hu)
        as (pre & post & Hc & Hupd & _).
      now exists pre, post.
  - apply users_put_cast_error.
Qed.

Lemma user_update_witness :
  handle Sample.accept_all Sample.env
    (PUT_user Sample.u7_hex (mkUserBody (Some "carol") None)) Sample.store
    = (Sample.store, Json (R_user None))
  /\
  snd (handle Sample.accept_all Sample.env
         (PUT_user Sample.u2_hex (mkUserBody (Some "robert") None)) Sample.store)
    = Json (R_user (Some (User.mk Sample.u2 "robert" false 2)))
  /\
  handle Sample.accept_all Sample.env
    (PUT_user Sample.malformed (mkUserBody (Some "carol") None)) Sample.store
    = (Sample.store, Rejected (CastError Sample.malformed "_id")).
Proof.
  split; [|split].
  - destruct (user_update Sample.accept_all Sample.env Sample.u7_hex
                (mkUserBody (Some "carol") None) Sample.store eq_refl) as [Hcast _].
    destruct (Hcast Sample.u7 (cast_toString Sample.u7)) as [Hnull _].
    now apply Hnull.
  - destruct (user_update Sample.accept_all Sample.env Sample.u2_hex
                (mkUserBody (Some "robert") None) Sample.store eq_refl) as [Hcast _].
    destruct (Hcast Sample.u2 (cast_toString Sample.u2)) as [_ Hfound].
    destruct (Hfound Sample.bob eq_refl) as [Hanswer _]. exact Hanswer.
  - destruct (user_update Sample.accept_all Sample.env Sample.malformed
                (mkUserBody (Some "carol") None) Sample.store eq_refl) as [_ Herror].
    now apply Herror.
Defined.

Lemma users_after_delete i s :
  users (fst (users_delete i s)) = users s \/
  exists o,
    ObjectId.cast i = Some o /\
    users (fst (users_delete i s))
      = updateFirst (by_user_id (ObjectId.toString o)) (User.set_isRemoved true) (users s).
Proof.
  destruct (ObjectId.cast i) as [o|] eqn:Hcast.
  - right. exists o. split; [reflexivity|].
    destruct (findOne (by_user_id (ObjectId.toString o)) (users s)) as [u|] eqn:E.
    + now rewrite (users_delete_found i o u s Hcast E).
    + rewrite (users_delete_missing i o s Hcast E). cbn.
      now rewrite (updateFirst_no_match _ _ _ E).
  - left. now rewrite (users_delete_cast_error i s Hcast).
Qed.

Lemma sessions_after_delete i s :
  (ObjectId.cast i = None /\ sessions (fst (users_delete i s)) = sessions s) \/
  (exists o, ObjectId.cast i = Some o) /\
  sessions (fst (users_delete i s))
    = updateFirst (active_session_of i) (UserSession.set_isRemoved true) (sessions s).
Proof.
  destruct (ObjectId.cast i) as [o|] eqn:Hcast.
  - right. split; [now exists o|].
    destruct (findOne (by_user_id (ObjectId.toString o)) (users s)) as [u|] eqn:E.
    + now rewrite (users_delete_found i o u s Hcast E).
    + now rewrite (users_delete_missing i o s Hcast E).
  - left. split; [reflexivity|]. now rewrite (users_delete_cast_error i s Hcast).
Qed.

(** X8. A deleted user is still served: after [DELETE /users/:userId] on an
    existing user, [GET /users/:userId] answers the user record with
    [isRemoved] true, and a second delete answers the same record again and
    leaves the users collection as the first delete left it. *)
Theorem removed_user_is_still_served (v : Validators) (e : Env) (i : string) (s : Store)
    (u : User.t) :
  findOne (by_user_id i) (users s) = Some u ->
  let s1 := fst (handle v e (DELETE_user i) s) in
  let gone := User.set_isRemoved true u in
  User.isRemoved gone = true /\
  handle v e (GET_user i) s1 = (s1, Json (R_user (Some gone))) /\
  snd (handle v e (DELETE_user i) s1) = Json (R_user (Some gone)) /\
  users (fst (handle v e (DELETE_user i) s1)) = users s1.
Proof.
  intros Hu. cbv zeta. cbn [handle].
  destruct (found_user_cast _ _ _ Hu) as [Hcast Hi].
  assert (Hs1 : findOne (by_user_id (ObjectId.toString (User._id u)))
                  (users (fst (users_delete i s)))
                = Some (User.set_isRemoved true u)).
  { rewrite (users_delete_found i _ u s Hcast) by now rewrite Hi.
    cbn [fst users]. rewrite findOne_updateFirst by reflexivity.
    now rewrite Hi, Hu. }
  split; [reflexivity|].
  split; [rewrite (users_get_cast i _ _ Hcast); now rewrite Hs1|].
  rewrite (users_delete_found i _ _ _ Hcast Hs1). cbn [fst snd users].
  split; [reflexivity|].
  destruct (updateFirst_split _ (User.set_isRemoved true) _ _ Hs1)
    as (pre & post & Hc & Hupd & _).
  now rewrite Hupd, Hc.
Qed.

Lemma removed_user_is_still_served_witness :
  handle Sample.accept_all Sample.env (GET_user Sample.u1_hex)
    (fst (handle Sample.accept_all Sample.env (DELETE_user Sample.u1_hex) Sample.store))
  = (fst (handle Sample.accept_all Sample.env (DELETE_user Sample.u1_hex) Sample.store),
     Json (R_user (Some (User.mk Sample.u1 "alice" true 1)))).
Proof.
  destruct (removed_user_is_still_served Sample.accept_all Sample.env Sample.u1_hex
              Sample.store Sample.alice eq_refl) as (_ & Hget & _).
  exact Hget.
Defined.


(** ** Sessions *)

Section FirstMatch.
Context {A : Type} (q : A -> bool) (f : A -> A).
Hypothesis f_unmatches : forall d, q d = true -> q (f d) = false.

Lemma filter_updateFirst_length (c : list A) :
  length (List.filter q (updateFirst q f c)) = Nat.pred (length (List.filter q c)).
Proof.
  induction c as [|d c IH]; cbn; [reflexivity|].
  destruct (q d) eqn:E; cbn.
  - now rewrite (f_unmatches d E).
  - rewrite E. exact IH.
Qed.

Lemma In_updateFirst_other (c : list A) (d : A) :
  In d c -> q d = false -> In d (updateFirst q f c).
Proof.
  induction c as [|x c IH]; cbn; [trivial|].
  intros [<-|Hin] Hq.
  - rewrite Hq. now left.
  - destruct (q x); right; auto.
Qed.
End FirstMatch.

Lemma active_session_of_removed i x :
  active_session_of i (UserSession.set_isRemoved true x) = false.
Proof. unfold active_session_of. cbn. apply andb_false_r. Qed.

(** X9. [DELETE /users/:userId] and the sessions.  When the id of the
    request is no ObjectId, the lookup of the user fails first and no
    session is touched.  When it is an ObjectId, whether or not a user has
    it, one session is marked: the first of the sessions whose [userId] is
    the string of the request and that are not yet removed.  The number of
    such sessions goes down by one (it stays zero when there is none), and
    sessions of other users and sessions already removed are left as they
    are.  In no case is a session created or deleted. *)
Theorem user_removal_marks_first_active_session
    (v : Validators) (e : Env) (i : string) (s : Store) :
  let s' := fst (handle v e (DELETE_user i) s) in
  List.map UserSession._id (sessions s') = List.map UserSession._id (sessions s) /\
  (ObjectId.cast i = None -> sessions s' = sessions s) /\
  (forall o, ObjectId.cast i = Some o ->
     length (active_sessions i (sessions s'))
       = Nat.pred (length (active_sessions i (sessions s))) /\
     (forall x, In x (sessions s) -> UserSession.userId x <> i -> In x (sessions s')) /\
     (forall x, In x (sessions s) -> UserSession.isRemoved x = true -> In x (sessions s')) /\
     (forall x, findOne (active_session_of i) (sessions s) = Some x ->
        exists pre post,
          sessions s = pre ++ x :: post /\
          sessions s' = pre ++ UserSession.set_isRemoved true x :: post /\
          (forall y, In y pre -> active_session_of i y = false)) /\
     (findOne (active_session_of i) (sessions s) = None -> sessions s' = sessions s)).
Proof.
  cbv zeta. cbn [handle].
  destruct (sessions_after_delete i s) as [[Hcast ->]|[[o Hcast] ->]].
  - split; [reflexivity|]. split; [reflexivity|]. intros o Ho. congruence.
  - split; [now apply map_updateFirst|]. split; [congruence|]. intros _ _.
    unfold active_sessions.
    split; [apply filter_updateFirst_length; intros d _; apply active_session_of_removed|].
    split.
    { intros x Hx Hne. apply In_updateFirst_other; [exact Hx|].
      unfold active_session_of. apply andb_false_intro1. now apply String.eqb_neq. }
    split.
    { intros x Hx Hrem. apply In_updateFirst_other; [exact Hx|].
      unfold active_session_of. rewrite Hrem. apply andb_false_r. }
    split.
    + intros x Hx. apply (updateFirst_split _ _ _ _ Hx).
    + apply updateFirst_no_match.
Qed.

(** A session with the default [userId], which is no ObjectId: the request
    is rejected at the lookup and the session stays active. *)
Example session_of_default_user :
  handle Sample.accept_all Sample.env (DELETE_user "0")
    (mkStore [] [UserSession.mk Sample.s1 "0" false 10] [] [])
  = (mkStore [] [UserSession.mk Sample.s1 "0" false 10] [] [],
     Rejected (CastError "0" "_id")).
Proof. reflexivity. Qed.

Example session_marking_sample :
  List.map UserSession.isRemoved
    (sessions (after_two_deletes Sample.store)) = [true; true; false].
Proof. reflexivity. Qed.

(** ** What the routes never do to users and sessions *)

Lemma articles_post_frame errors e b s :
  users (fst (articles_post errors e b s)) = users s /\
  sessions (fst (articles_post errors e b s)) = sessions s /\
  comments (fst (articles_post errors e b s)) = comments s.
Proof.
  destruct errors as [|x errors]; [|repeat split].
  run_handler.
  destruct (findOne (by_title (body_title b)) (articles s)); [repeat split|].
  destruct (create Article._id (Article_new e b) (articles s)); repeat split.
Qed.

Lemma articles_put_frame errors i b s :
  users (fst (articles_put errors i b s)) = users s /\
  sessions (fst (articles_put errors i b s)) = sessions s /\
  comments (fst (articles_put errors i b s)) = comments s.
Proof.
  destruct errors as [|x errors]; [|repeat split].
  destruct (title_clash i (body_title b) s) eqn:Hc.
  - rewrite articles_put_clash by exact Hc. repeat split.
  - destruct (ObjectId.cast i) as [o|] eqn:Hcast.
    + rewrite (articles_put_proceeds i o b s Hc Hcast). repeat split.
    + rewrite (articles_put_cast_error i b s Hc Hcast). repeat split.
Qed.

Lemma articles_delete_frame i s :
  users (fst (articles_delete i s)) = users s /\
  sessions (fst (articles_delete i s)) = sessions s.
Proof.
  destruct (ObjectId.cast i) as [o|] eqn:Hcast.
  - destruct (findOne (by_article_id (ObjectId.toString o)) (articles s)) as [a|] eqn:E.
    + rewrite (articles_delete_found i o a s Hcast E). split; reflexivity.
    + rewrite (articles_delete_missing i o s Hcast E). split; reflexivity.
  - rewrite (articles_delete_cast_error i s Hcast). split; reflexivity.
Qed.

Lemma comments_delete_frame i s :
  users (fst (comments_delete i s)) = users s /\
  sessions (fst (comments_delete i s)) = sessions s /\
  articles (fst (comments_delete i s)) = articles s.
Proof.
  run_handler. destruct (ObjectId.cast i); repeat split.
Qed.

Lemma users_get_frame i s : fst (users_get i s) = s.
Proof. run_handler. destruct (ObjectId.cast i); reflexivity. Qed.

Lemma comments_post_frame errors e b s :
  users (fst (comments_post errors e b s)) = users s /\
  sessions (fst (comments_post errors e b s)) = sessions s.
Proof.
  destruct errors as [|x errors]; [|repeat split].
  run_handler.
  destruct (create Comment._id (Comment_new e b) (comments s)); [repeat split|].
  destruct (ObjectId.cast (body_articleId b)); repeat split.
Qed.

Lemma users_put_frame errors i b s :
  users (fst (users_put errors i b s)) = users s \/
  exists o,
    users (fst (users_put errors i b s))
      = updateFirst (by_user_id (ObjectId.toString o)) (set_user_body b) (users s).
Proof.
  destruct errors as [|x errors]; [|left; reflexivity].
  destruct (ObjectId.cast i) as [o|] eqn:Hcast.
  - right. exists o. now rewrite (users_put_cast i o b s Hcast).
  - left. now rewrite (users_put_cast_error i b s Hcast).
Qed.

Lemma users_put_sessions errors i b s :
  sessions (fst (users_put errors i b s)) = sessions s.
Proof.
  destruct errors; [|reflexivity]. run_handler. destruct (ObjectId.cast i); reflexivity.
Qed.

(** The users collection under a route: untouched, or one record rewritten
    in place by [f]. *)
Lemma users_after_route (v : Validators) (e : Env) (r : Route) (s : Store) :
  users (fst (handle v e r s)) = users s \/
  exists q f,
    users (fst (handle v e r s)) = updateFirst q f (users s) /\
    (f = User.set_isRemoved true \/ exists b, f = set_user_body b).
Proof.
  destruct r; cbn [handle]; try (left; reflexivity).
  - left. apply articles_post_frame.
  - left. apply articles_put_frame.
  - left. apply articles_delete_frame.
  - left. apply comments_post_frame.
  - left. apply comments_delete_frame.
  - left. now rewrite users_get_frame.
  - destruct (users_put_frame (editUserValidators v body) userId body s)
      as [->|[o ->]]; [now left|].
    right. eexists _, _. split; [reflexivity|]. right. now exists body.
  - destruct (users_after_delete userId s) as [->|(o & _ & ->)]; [now left|].
    right. eexists _, _. split; [reflexivity|]. now left.
Qed.

(** X10. No route creates or hard-deletes a user: after any request the
    users collection holds the same ids at the same positions. *)
Theorem users_are_never_created_or_deleted
    (v : Validators) (e : Env) (r : Route) (s : Store) :
  let s' := fst (handle v e r s) in
  List.map User._id (users s') = List.map User._id (users s) /\
  length (users s') = length (users s).
Proof.
  cbv zeta.
  destruct (users_after_route v e r s) as [->|(q & f & -> & Hf)]; [repeat split|].
  split.
  - apply map_updateFirst. destruct Hf as [->|[b ->]]; reflexivity.
  - apply updateFirst_length.
Qed.

Lemma sessions_after_route (v : Validators) (e : Env) (r : Route) (s : Store) :
  sessions (fst (handle v e r s)) = sessions s \/
  exists i,
    r = DELETE_user i /\
    sessions (fst (handle v e r s))
      = updateFirst (active_session_of i) (UserSession.set_isRemoved true) (sessions s).
Proof.
  destruct r; cbn [handle]; try (left; reflexivity).
  - left. apply articles_post_frame.
  - left. apply articles_put_frame.
  - left. apply articles_delete_frame.
  - left. apply comments_post_frame.
  - left. apply comments_delete_frame.
  - left. now rewrite users_get_frame.
  - left. apply users_put_sessions.
  - destruct (sessions_after_delete userId s) as [[_ ->]|[_ ->]]; [now left|].
    right. exists userId. split; reflexivity.
Qed.

(** X11. Only [DELETE /users/:userId] writes to sessions.  No route creates
    or deletes a session, gives one to another user, or makes a removed
    session active again. *)
Theorem sessions_are_only_ever_marked
    (v : Validators) (e : Env) (r : Route) (s : Store) :
  let s' := fst (handle v e r s) in
  ((forall i, r <> DELETE_user i) -> sessions s' = sessions s) /\
  List.map UserSession._id (sessions s') = List.map UserSession._id (sessions s) /\
  List.map UserSession.userId (sessions s') = List.map UserSession.userId (sessions s) /\
  Forall2 (fun x x' => UserSession.isRemoved x = true -> x' = x) (sessions s) (sessions s').
Proof.
  cbv zeta.
  destruct (sessions_after_route v e r s) as [->|(i & -> & ->)].
  - repeat split. apply Forall2_same_length_lookup_2; [reflexivity|].
    intros k x x' Hx Hx' _. congruence.
  - split; [intros Hne; now destruct (Hne i)|].
    split; [now apply map_updateFirst|]. split; [now apply map_updateFirst|].
    induction (sessions s) as [|x l IH]; cbn; [constructor|].
    destruct (active_session_of i x) eqn:E.
    + constructor.
      * intros Hrem. unfold active_session_of in E. rewrite Hrem in E.
        now rewrite andb_false_r in E.
      * clear. induction l; constructor; auto.
    + constructor; [reflexivity|exact IH].
Qed.

(** ** More on the articles router *)

Lemma title_clash_without_target i t s :
  (forall o, ObjectId.cast i = Some o ->
             findOne (by_article_id (ObjectId.toString o)) (articles s) = None) ->
  title_clash i t s = true <-> exists a, In a (articles s) /\ Article.title a = t.
Proof.
  intros Hnone. unfold title_clash. split.
  - destruct (findOne (by_title t) (articles s)) as [v0|] eqn:E; [|discriminate].
    intros _. exists v0. apply findOne_Some in E as [Hin Ht].
    split; [exact Hin|now apply by_title_true].
  - intros (a & Hin & Ht).
    destruct (findOne_is_Some (by_title t) _ a Hin) as [v0 Hv0].
    { now apply by_title_true. }
    rewrite Hv0. apply findOne_Some in Hv0 as [Hv0in _].
    apply negb_true_iff, String.eqb_neq. intros Heq.
    pose proof (Hnone _ (cast_rendered _ _ Heq)) as Habsent.
    apply (findOne_None _ _ Habsent) in Hv0in.
    unfold by_article_id in Hv0in. now rewrite String.eqb_refl in Hv0in.
Qed.

(** X12. An update never creates an article: whatever the request, the
    collection keeps its length and its ids.  When the id of a valid
    [PUT /articles/:articleId] names no stored article (it is no ObjectId,
    or an ObjectId no article has), nothing is written: the answer is the
    duplicate-title error when some article holds the title; otherwise it is
    [{article: null}] for an ObjectId, and the cast error goes to [next] for
    a string that is no ObjectId. *)
Theorem update_of_missing_article
    (v : Validators) (e : Env) (i : string) (b : ArticleBody) (s : Store) :
  let s' := fst (handle v e (PUT_article i b) s) in
  length (articles s') = length (articles s) /\
  List.map Article._id (articles s') = List.map Article._id (articles s) /\
  (articleValidators v b = [] ->
   (forall o, ObjectId.cast i = Some o ->
              findOne (by_article_id (ObjectId.toString o)) (articles s) = None) ->
   s' = s /\
   ((exists a, In a (articles s) /\ Article.title a = body_title b) ->
    snd (handle v e (PUT_article i b) s) = Json (R_errors [same_title_error])) /\
   ((forall a, In a (articles s) -> Article.title a <> body_title b) ->
    (forall o, ObjectId.cast i = Some o ->
       snd (handle v e (PUT_article i b) s) = Json (R_article None)) /\
    (ObjectId.cast i = None ->
       snd (handle v e (PUT_article i b) s) = Next (CastError i "_id")))).
Proof.
  cbv zeta. cbn [handle].
  split; [|split].
  - destruct (articles_after_put (articleValidators v b) i b s) as [->|(o & -> & _)];
      [reflexivity|apply updateFirst_length].
  - destruct (articles_after_put (articleValidators v b) i b s) as [->|(o & -> & _)];
      [reflexivity|now apply map_updateFirst].
  - intros -> Hnone.
    destruct (title_clash i (body_title b) s) eqn:Hc.
    + rewrite articles_put_clash by exact Hc. cbn [fst snd].
      split; [reflexivity|]. split; [reflexivity|].
      intros Hfree. apply (title_clash_without_target i _ s Hnone) in Hc as (a & Hin & Ht).
      now destruct (Hfree a Hin).
    + assert (Hheld : (exists a, In a (articles s) /\ Article.title a = body_title b) ->
                      False).
      { intros Hheld. apply (title_clash_without_target i _ s Hnone) in Hheld.
        congruence. }
      destruct (ObjectId.cast i) as [o|] eqn:Hcast.
      * rewrite (articles_put_proceeds i o b s Hc Hcast). cbn [fst snd].
        rewrite (Hnone o eq_refl), (updateFirst_no_match _ _ _ (Hnone o eq_refl)).
        cbn [option_map].
        split; [destruct s; reflexivity|]. split; [intros H; now destruct (Hheld H)|].
        intros _. split; [reflexivity|discriminate].
      * rewrite (articles_put_cast_error i b s Hc Hcast). cbn [fst snd].
        split; [reflexivity|]. split; [intros H; now destruct (Hheld H)|].
        intros _. split; [discriminate|reflexivity].
Qed.

Lemma update_of_missing_article_witness :
  (fst (handle Sample.accept_all Sample.env (PUT_article Sample.a7_hex Sample.free_title)
          Sample.store) = Sample.store /\
   snd (handle Sample.accept_all Sample.env (PUT_article Sample.a7_hex Sample.free_title)
          Sample.store) = Json (R_article None)) /\
  snd (handle Sample.accept_all Sample.env (PUT_article Sample.a7_hex Sample.title_of_hello)
         Sample.store) = Json (R_errors [same_title_error]) /\
  snd (handle Sample.accept_all Sample.env (PUT_article Sample.malformed Sample.free_title)
         Sample.store) = Next (CastError Sample.malformed "_id").
Proof.
  split; [|split].
  - destruct (update_of_missing_article Sample.accept_all Sample.env Sample.a7_hex
                Sample.free_title Sample.store) as (_ & _ & Hmissing).
    destruct (Hmissing eq_refl) as (Hstore & _ & Hfree).
    { intros o Ho. apply sample_a7_cast in Ho. now subst o. }
    split; [exact Hstore|].
    destruct Hfree as [Hnull _]; [intros a [<-|[<-|[]]]; discriminate|].
    exact (Hnull Sample.a7 (cast_toString Sample.a7)).
  - destruct (update_of_missing_article Sample.accept_all Sample.env Sample.a7_hex
                Sample.title_of_hello Sample.store) as (_ & _ & Hmissing).
    destruct (Hmissing eq_refl) as (_ & Hdup & _).
    { intros o Ho. apply sample_a7_cast in Ho. now subst o. }
    apply Hdup. exists Sample.hello. split; [left; reflexivity|reflexivity].
  - destruct (update_of_missing_article Sample.accept_all Sample.env Sample.malformed
                Sample.free_title Sample.store) as (_ & _ & Hmissing).
    destruct (Hmissing eq_refl) as (_ & _ & Hfree).
    { intros o Ho. discriminate Ho. }
    destruct Hfree as [_ Herror]; [intros a [<-|[<-|[]]]; discriminate|].
    now apply Herror.
Defined.

(** ** The shape of a slug *)

Lemma lower_hyphenate_not_space c : lower (hyphenate c) <> " "%char.
Proof. destruct c as [[] [] [] [] [] [] [] []]; vm_compute; discriminate. Qed.

Lemma lower_idempotent c : lower (lower c) = lower c.
Proof. destruct c as [[] [] [] [] [] [] [] []]; reflexivity. Qed.

Lemma lower_hyphenate_fixed c :
  lower (hyphenate (lower (hyphenate c))) = lower (hyphenate c).
Proof. destruct c as [[] [] [] [] [] [] [] []]; reflexivity. Qed.

Lemma toLowerCase_idempotent s : toLowerCase (toLowerCase s) = toLowerCase s.
Proof. induction s as [|c r IH]; cbn; [reflexivity|]. now rewrite lower_idempotent, IH. Qed.

Lemma spec_slug_idempotent s : spec_slug (spec_slug s) = spec_slug s.
Proof.
  unfold spec_slug. induction s as [|c r IH]; cbn; [reflexivity|].
  now rewrite lower_hyphenate_fixed, IH.
Qed.

Lemma spec_slug_no_space s : ~ In " "%char (list_ascii_of_string (spec_slug s)).
Proof.
  unfold spec_slug. induction s as [|c r IH]; cbn; [tauto|].
  intros [H|H]; [now apply (lower_hyphenate_not_space c)|now apply IH].
Qed.

(** X13. The slug [router.put] computes contains no space, is already
    lowercase, and is its own slug; two titles that differ only in letter
    case or in spaces against hyphens therefore get the same slug. *)
Theorem slug_shape (title : string) :
  let slug := toLowerCase (join "-" (split " "%char title)) in
  ~ In " "%char (list_ascii_of_string slug) /\
  toLowerCase slug = slug /\
  toLowerCase (join "-" (split " "%char slug)) = slug /\
  (forall title', toLowerCase (replace_spaces title') = toLowerCase (replace_spaces title) ->
     toLowerCase (join "-" (split " "%char title')) = slug).
Proof.
  cbv zeta. rewrite join_split_replace.
  split; [apply spec_slug_no_space|].
  split; [apply toLowerCase_idempotent|].
  split; [rewrite join_split_replace; apply spec_slug_idempotent|].
  intros title' Heq. now rewrite join_split_replace.
Qed.

Example slug_collision :
  slug_of_title "Hello World" = slug_of_title "hello-world" /\
  "Hello World" <> "hello-world".
Proof. split; [reflexivity|discriminate]. Qed.

(** ** Paging through the article list *)

Lemma newest_first_length s : length (newest_first s) = length (articles s).
Proof. apply Permutation_length, newest_first_permutation. Qed.

Lemma In_page (l : list Article.t) (a : Article.t) :
  In a l -> exists k, In a (take 10 (drop (10 * k) l)).
Proof.
  intros Hin. apply list_elem_of_In, list_elem_of_lookup_1 in Hin as [n Hn].
  exists (n / 10)%nat. apply list_elem_of_In.
  apply (list_elem_of_lookup_2 _ (n mod 10)%nat).
  rewrite lookup_take_lt by (apply Nat.mod_upper_bound; lia).
  rewrite lookup_drop. now rewrite <- Nat.div_mod_eq.
Qed.

(** X14. Paging by tens reaches every article: each stored article is in
    the answer to [GET /articles?skip=10k] for some [k]; every article in
    an answer is a stored one; and a skip count at or beyond the number of
    articles is answered with the empty list. *)
Theorem paging_reaches_every_article (v : Validators) (e : Env) (s : Store) :
  (forall a, In a (articles s) ->
     exists k page,
       handle v e (GET_articles (10 * k)) s = (s, Json (R_articles page)) /\
       In (populate_article s a) page) /\
  (forall n page view,
     handle v e (GET_articles n) s = (s, Json (R_articles page)) ->
     In view page -> In (a_doc view) (articles s)) /\
  (forall n, (length (articles s) <= n)%nat ->
     handle v e (GET_articles n) s = (s, Json (R_articles []))).
Proof.
  cbn [handle]. split; [|split].
  - intros a Hin.
    apply (Permutation_in _ (Permutation_sym (newest_first_permutation s))) in Hin.
    destruct (In_page _ a Hin) as [k Hk].
    exists k, (List.map (populate_article s) (take 10 (drop (10 * k) (newest_first s)))).
    split; [apply articles_get_eq|now apply in_map].
  - intros n page view Heq Hview. rewrite articles_get_eq in Heq.
    injection Heq as <-. apply in_map_iff in Hview as (a & <- & Ha).
    cbn [a_doc populate_article].
    apply (Permutation_in _ (newest_first_permutation s)).
    apply list_elem_of_In. apply list_elem_of_In in Ha.
    apply (elem_of_sublist _ _ _ Ha).
    etransitivity; [apply sublist_take|apply sublist_drop].
  - intros n Hn. rewrite articles_get_eq.
    rewrite drop_ge by (rewrite newest_first_length; lia). reflexivity.
Qed.

Lemma paging_reaches_every_article_witness :
  exists k page,
    handle Sample.accept_all Sample.env (GET_articles (10 * k)) Sample.store
      = (Sample.store, Json (R_articles page)) /\
    In (populate_article Sample.store Sample.hello) page.
Proof.
  destruct (paging_reaches_every_article Sample.accept_all Sample.env Sample.store)
    as (Hreach & _).
  apply Hreach. left; reflexivity.
Defined.

(** ** Repeated requests *)

Lemma inc_views_add n m a :
  Article.inc_views n (Article.inc_views m a) = Article.inc_views (m + n) a.
Proof. unfold Article.inc_views. cbn. f_equal. lia. Qed.

Lemma inc_views_zero a : Article.inc_views 0 a = a.
Proof. destruct a. unfold Article.inc_views. cbn. f_equal. lia. Qed.

(** X15. View increments add up: after [n] requests to
    [GET /articles/views/:slug] the first article with that slug has its
    counter raised by [n], and no record is added to or removed from any
    collection.  On a slug no article has, the request answers
    [{article: null}] and writes nothing. *)
Theorem views_add_up (v : Validators) (e : Env) (slug : string) (n : nat) (s : Store) :
  (forall a,
     findOne (by_slug slug) (articles s) = Some a ->
     let s' := after_views v e slug n s in
     findOne (by_slug slug) (articles s') = Some (Article.inc_views (Z.of_nat n) a) /\
     Article.views (Article.inc_views (Z.of_nat n) a) = Article.views a + Z.of_nat n /\
     List.map Article._id (articles s') = List.map Article._id (articles s) /\
     users s' = users s /\ sessions s' = sessions s /\ comments s' = comments s)
  /\
  (findOne (by_slug slug) (articles s) = None ->
   handle v e (GET_article_views slug) s = (s, Json (R_article None))).
Proof.
  split.
  - intros a Ha. cbv zeta. unfold after_views.
    induction n as [|n IH].
    + cbn [Nat.iter nat_rect Z.of_nat]. rewrite inc_views_zero, Z.add_0_r.
      now repeat split.
    + rewrite Nat.iter_succ. destruct IH as (Hfound & _ & Hids & Hu & Hs & Hc).
      cbn [handle] in *. rewrite articles_views_eq.
      cbn [fst users sessions articles comments set_articles].
      split.
      { rewrite findOne_updateFirst by (intros d; apply by_slug_inc_views).
        rewrite Hfound. cbn [option_map]. rewrite inc_views_add.
        do 2 f_equal. lia. }
      split; [reflexivity|].
      split; [rewrite map_updateFirst by reflexivity; exact Hids|].
      now repeat split.
  - intros Hnone. cbn [handle]. rewrite articles_views_eq.
    rewrite Hnone, (updateFirst_no_match _ _ _ Hnone). destruct s; reflexivity.
Qed.

Lemma views_add_up_witness :
  findOne (by_slug "hello-world")
    (articles (after_views Sample.accept_all Sample.env "hello-world" 3 Sample.store))
    = Some (Article.mk Sample.a1 "Hello World" "hello-world" 10 (Some Sample.u1)
              [Sample.c1; Sample.c2] 100)
  /\
  handle Sample.accept_all Sample.env (GET_article_views "no-such-slug") Sample.store
    = (Sample.store, Json (R_article None)).
Proof.
  destruct (views_add_up Sample.accept_all Sample.env "hello-world" 3 Sample.store)
    as [Hsum _].
  destruct (views_add_up Sample.accept_all Sample.env "no-such-slug" 0 Sample.store)
    as [_ Hnull].
  split.
  - destruct (Hsum Sample.hello eq_refl) as [Hfound _]. exact Hfound.
  - now apply Hnull.
Defined.

(** X16. Deleting twice, with unique ids.  A second
    [DELETE /articles/:articleId] with the same id changes nothing, and so
    does a second [DELETE /articles/comments/:commentId].  When the id is an
    ObjectId, the second article delete sends no response and the second
    comment delete answers [{comment: null}]; when the string is no
    ObjectId, both deletes end in [next] with the cast error. *)
Theorem second_delete_does_nothing (v : Validators) (e : Env) (i : string) (s : Store) :
  (unique_article_ids s ->
   let s1 := fst (handle v e (DELETE_article i) s) in
   fst (handle v e (DELETE_article i) s1) = s1 /\
   (forall o, ObjectId.cast i = Some o ->
      snd (handle v e (DELETE_article i) s1) = NoResponse) /\
   (ObjectId.cast i = None ->
      snd (handle v e (DELETE_article i) s1) = Next (CastError i "_id")))
  /\
  (unique_comment_ids s ->
   let s1 := fst (handle v e (DELETE_comment i) s) in
   fst (handle v e (DELETE_comment i) s1) = s1 /\
   (forall o, ObjectId.cast i = Some o ->
      snd (handle v e (DELETE_comment i) s1) = Json (R_comment None)) /\
   (ObjectId.cast i = None ->
      snd (handle v e (DELETE_comment i) s1) = Next (CastError i "_id"))).
Proof.
  cbn [handle]. split; intros Hnd; cbv zeta.
  - destruct (ObjectId.cast i) as [o|] eqn:Hcast.
    + assert (Hgone : findOne (by_article_id (ObjectId.toString o))
                        (articles (fst (articles_delete i s))) = None).
      { destruct (findOne (by_article_id (ObjectId.toString o)) (articles s))
          as [a|] eqn:E.
        - rewrite (articles_delete_found i o a s Hcast E). cbn [fst articles].
          exact (findOne_removeFirst_id Article._id _ (articles s) Hnd).
        - rewrite (articles_delete_missing i o s Hcast E). exact E. }
      rewrite (articles_delete_missing i o _ Hcast Hgone). cbn [fst snd].
      split; [reflexivity|]. split; [reflexivity|discriminate].
    + rewrite !(articles_delete_cast_error i _ Hcast). cbn [fst snd].
      split; [reflexivity|]. split; [discriminate|reflexivity].
  - destruct (ObjectId.cast i) as [o|] eqn:Hcast.
    + pose proof (findOne_removeFirst_id Comment._id (ObjectId.toString o) (comments s) Hnd)
        as Hgone.
      fold (by_comment_id (ObjectId.toString o)) in Hgone.
      rewrite (comments_delete_cast i o (fst (comments_delete i s)) Hcast).
      rewrite (comments_delete_cast i o s Hcast). cbn [fst snd comments set_comments].
      rewrite Hgone, (removeFirst_no_match _ _ Hgone).
      split; [reflexivity|]. split; [reflexivity|discriminate].
    + rewrite !(comments_delete_cast_error i _ Hcast). cbn [fst snd].
      split; [reflexivity|]. split; [discriminate|reflexivity].
Qed.

Lemma sample_unique_article_ids : unique_article_ids Sample.store.
Proof.
  unfold unique_article_ids. cbn.
  constructor; [intros [H|[]]; discriminate|].
  constructor; [intros []|constructor].
Defined.

Lemma second_delete_does_nothing_witness :
  handle Sample.accept_all Sample.env (DELETE_article Sample.a1_hex)
    (fst (handle Sample.accept_all Sample.env (DELETE_article Sample.a1_hex) Sample.store))
  = (fst (handle Sample.accept_all Sample.env (DELETE_article Sample.a1_hex) Sample.store),
     NoResponse)
  /\
  handle Sample.accept_all Sample.env (DELETE_comment Sample.c3_hex)
    (fst (handle Sample.accept_all Sample.env (DELETE_comment Sample.c3_hex) Sample.store))
  = (fst (handle Sample.accept_all Sample.env (DELETE_comment Sample.c3_hex) Sample.store),
     Json (R_comment None)).
Proof.
  split.
  - destruct (second_delete_does_nothing Sample.accept_all Sample.env Sample.a1_hex
                Sample.store) as [Harticle _].
    destruct (Harticle sample_unique_article_ids) as (Hstore & Hsilent & _).
    rewrite (surjective_pairing (handle _ _ (DELETE_article Sample.a1_hex) (fst _))).
    rewrite Hstore, (Hsilent Sample.a1 (cast_toString Sample.a1)). reflexivity.
  - destruct (second_delete_does_nothing Sample.accept_all Sample.env Sample.c3_hex
                Sample.store) as [_ Hcomment].
    destruct (Hcomment sample_unique_comment_ids) as (Hstore & Hnull & _).
    rewrite (surjective_pairing (handle _ _ (DELETE_comment Sample.c3_hex) (fst _))).
    rewrite Hstore, (Hnull Sample.c3 (cast_toString Sample.c3)). reflexivity.
Defined.

(** ** Witnesses of the invariants *)

Lemma sample_slug_in_sync : slug_in_sync Sample.store.
Proof. unfold slug_in_sync. cbn. repeat constructor. Defined.

Lemma slug_in_sync_preserved_witness :
  slug_in_sync
    (fst (handle Sample.accept_all Sample.env (PUT_article Sample.a1_hex Sample.free_title)
            Sample.store)).
Proof.
  exact (slug_in_sync_preserved Sample.accept_all Sample.env
           (PUT_article Sample.a1_hex Sample.free_title) Sample.store sample_slug_in_sync).
Defined.

Lemma articles_wf_preserved_witness :
  articles_wf
    (fst (handle Sample.accept_all Sample.env (PUT_article Sample.a1_hex Sample.free_title)
            Sample.store)).
Proof.
  exact (articles_wf_preserved Sample.accept_all Sample.env
           (PUT_article Sample.a1_hex Sample.free_title) Sample.store
           (conj sample_unique_article_ids sample_unique_titles)).
Defined.

(** ** Comment ids *)

Lemma comments_after_post errors e b s :
  comments (fst (comments_post errors e b s)) = comments s \/
  comments (fst (comments_post errors e b s)) = comments s ++ [Comment_new e b] /\
  findOne (by_comment_id (ObjectId.toString (fresh e))) (comments s) = None.
Proof.
  destruct errors as [|x errors]; [|left; reflexivity].
  destruct (findOne (by_comment_id (ObjectId.toString (fresh e))) (comments s))
    as [d|] eqn:Hid.
  - left. apply findOne_Some in Hid as [Hin Hd]. apply by_comment_id_true in Hd.
    destruct (create_taken Comment._id (Comment_new e b) d _ Hin Hd) as [err Herr].
    run_handler. rewrite Herr. reflexivity.
  - right. destruct (ObjectId.cast (body_articleId b)) as [o|] eqn:Hcast.
    + rewrite (comments_post_creates e o b s Hid Hcast). now cbn.
    + rewrite (comments_post_cast_error e b s Hid Hcast). now cbn.
Qed.

Lemma comments_after_route (v : Validators) (e : Env) (r : Route) (s : Store) :
  comments (fst (handle v e r s)) = comments s \/
  (exists c, comments (fst (handle v e r s)) = comments s ++ [c] /\
             forall x, In x (comments s) -> Comment._id x <> Comment._id c) \/
  (exists q, comments (fst (handle v e r s)) = removeFirst q (comments s)) \/
  (exists q, comments (fst (handle v e r s)) = remove q (comments s)).
Proof.
  destruct r; cbn [handle]; try (left; reflexivity).
  - left. apply articles_post_frame.
  - left. apply articles_put_frame.
  - destruct (ObjectId.cast articleId) as [o|] eqn:Hcast.
    + destruct (findOne (by_article_id (ObjectId.toString o)) (articles s))
        as [a|] eqn:E.
      * rewrite (articles_delete_found _ o a s Hcast E). right; right; right.
        now exists (comment_of_article (Article._id a)).
      * rewrite (articles_delete_missing _ o s Hcast E). now left.
    + rewrite (articles_delete_cast_error _ s Hcast). now left.
  - destruct (comments_after_post (commentValidators v body) e body s)
      as [->|(-> & Hid)]; [now left|].
    right; left. exists (Comment_new e body). split; [reflexivity|].
    intros x Hx. apply (findOne_None _ _ Hid) in Hx. apply String.eqb_neq in Hx.
    cbn [Comment._id Comment_new]. congruence.
  - destruct (ObjectId.cast commentId) as [o|] eqn:Hcast.
    + rewrite (comments_delete_cast _ o s Hcast). right; right; left.
      now exists (by_comment_id (ObjectId.toString o)).
    + rewrite (comments_delete_cast_error _ s Hcast). now left.
  - left. now rewrite users_get_frame.
  - left. destruct (editUserValidators v body); [|reflexivity].
    run_handler. destruct (ObjectId.cast userId); reflexivity.
  - destruct (ObjectId.cast userId) as [o|] eqn:Hcast.
    + destruct (findOne (by_user_id (ObjectId.toString o)) (users s)) as [u|] eqn:E.
      * rewrite (users_delete_found _ o u s Hcast E). right; right; right.
        now exists (comment_of_user (User._id u)).
      * rewrite (users_delete_missing _ o s Hcast E). now left.
    + rewrite (users_delete_cast_error _ s Hcast). now left.
Qed.

(** X20. Comment ids stay unique under every route: the store's unique
    index on [_id] refuses a create whose id is taken, and the other routes
    only remove comments. *)
Theorem comment_ids_stay_unique (v : Validators) (e : Env) (r : Route) (s : Store) :
  unique_comment_ids s -> unique_comment_ids (fst (handle v e r s)).
Proof.
  unfold unique_comment_ids. intros Hnd.
  destruct (comments_after_route v e r s)
    as [->|[(c & -> & Hfresh)|[(q & ->)|(q & ->)]]].
  - exact Hnd.
  - now apply NoDup_map_snoc.
  - now apply NoDup_map_removeFirst.
  - now apply NoDup_map_remove.
Qed.

Lemma comment_ids_stay_unique_witness :
  unique_comment_ids
    (fst (handle Sample.accept_all Sample.env
            (POST_comment Sample.on_second) Sample.store)).
Proof.
  exact (comment_ids_stay_unique Sample.accept_all Sample.env
           (POST_comment Sample.on_second) Sample.store
           sample_unique_comment_ids).
Defined.
